(** * js-osch-base: Account, Asset and TransactionBuilder

    A shallow embedding of [src/account.js], [src/asset.js] and
    [src/transaction_builder.js], and the properties of the envelope
    construction protocol proved over it.

    Conventions of the embedding.
    - A JS object that is shared by reference (an [Account], a timebounds
      options object, a [Date]) lives in a [heap]; a method that mutates it
      is a function on heaps.  The builder itself is passed explicitly.
    - [throw new Error(msg)] is the [Err] result; [error_message] gives the
      text of each throw.  The heap at the point of a throw is not tracked.
    - A JS number is modelled by an integer of [Z]: fees, timeouts and
      timestamps are integer valued, and [<] and [===] are exact on them.
      The product of the fee is the double nearest to the exact product
      ([js_mul]): exact up to 2^53, rounded beyond.  The sum of [setTimeout]
      adds the timeout to the seconds of the clock and is taken exact, as
      it is while it stays below 2^53.  The
      one quotient of the source, [getTime() / 1000], has a value of its own
      among the time values.
    - Code of the repository that is not under [src/] (strkey, keypair, memo,
      the generated XDR types) and the third-party codec are the fields of the
      class [Collaborators]. *)

From Stdlib Require Import ZArith String Ascii List Bool Lia.
From Stdlib Require Import DecimalString DecimalZ.
From stdpp Require Import base gmap strings list.

Local Open Scope Z_scope.

(** ** Errors *)

(** One constructor per [throw] of the three source files, named by the kind
    the specification gives it, and one per failure of a callee. *)
Inductive error : Type :=
| InvalidIdentity          (* account.js:17 *)
| InvalidSequenceFormat    (* account.js:20 *)
| NotANumber               (* raised by [new BigNumber(text)] *)
| InvalidAssetCode         (* asset.js:19 *)
| MissingIssuer            (* asset.js:24 *)
| InvalidIssuer            (* asset.js:27 *)
| MissingSourceAccount     (* transaction_builder.js:64 *)
| TimeBoundsConflict       (* transaction_builder.js:122 *)
| NegativeTimeout          (* transaction_builder.js:128 *)
| MissingTimeBounds        (* transaction_builder.js:159 *)
| TypeError                (* a property read on [undefined] *)
| InvalidPublicKey         (* raised by [Keypair.fromPublicKey] *)
| InvalidHyperString       (* raised by a [fromString] of the codec *)
| InvalidReference.        (* a location with no object: not reachable from JS *)

(** The text of each [throw] of the source files. *)
Definition error_message (e : error) : option string :=
  match e with
  | InvalidIdentity => Some "accountId is invalid"
  | InvalidSequenceFormat => Some "sequence must be of type string"
  | InvalidAssetCode =>
      Some "Asset code is invalid (maximum alphanumeric, 12 characters at max)"
  | MissingIssuer => Some "Issuer cannot be null"
  | InvalidIssuer => Some "Issuer is invalid"
  | MissingSourceAccount => Some "must specify source account for the transaction"
  | TimeBoundsConflict =>
      Some "TimeBounds.max_time has been already set - setting timeout would overwrite it."
  | NegativeTimeout => Some "timeout cannot be negative"
  | MissingTimeBounds =>
      Some "TimeBounds has to be set or you must call setTimeout(TimeoutInfinite)."
  | NotANumber | TypeError | InvalidPublicKey | InvalidHyperString
  | InvalidReference => None
  end.

#[global] Instance error_eq_dec : EqDecision error.
Proof. solve_decision. Defined.

Inductive result (A : Type) : Type :=
| Ok (a : A)
| Err (e : error).
Arguments Ok {A} a.
Arguments Err {A} e.

Definition is_Ok {A} (r : result A) : bool :=
  match r with Ok _ => true | Err _ => false end.

Definition of_option {A} (e : error) (o : option A) : result A :=
  match o with Some a => Ok a | None => Err e end.

(** ** Strings *)

Definition NUL : ascii := Ascii.zero.

Definition is_alnum (c : ascii) : bool :=
  let n := nat_of_ascii c in
  ((48 <=? n) && (n <=? 57) || (65 <=? n) && (n <=? 90) || (97 <=? n) && (n <=? 122))%nat.

Definition lower_ascii (c : ascii) : ascii :=
  let n := nat_of_ascii c in
  if ((65 <=? n) && (n <=? 90))%nat then ascii_of_nat (n + 32) else c.

(** [String.prototype.toLowerCase], on ASCII text. *)
Fixpoint toLowerCase (s : string) : string :=
  match s with
  | EmptyString => EmptyString
  | String c s' => String (lower_ascii c) (toLowerCase s')
  end.

Fixpoint all_chars (p : ascii -> bool) (s : string) : bool :=
  match s with
  | EmptyString => true
  | String c s' => p c && all_chars p s'
  end.

Fixpoint repeat_char (c : ascii) (n : nat) : string :=
  match n with
  | O => EmptyString
  | S n' => String c (repeat_char c n')
  end.

(** lodash [padEnd(string, length, chars)] with a one-character [chars]. *)
Definition padEnd (s : string) (n : nat) (c : ascii) : string :=
  (s +:+ repeat_char c (n - String.length s))%nat.

(** lodash [trimEnd(string, chars)] with a one-character [chars]: the longest
    run of [c] at the end of [s] is removed. *)
Fixpoint trimEnd (s : string) (c : ascii) : string :=
  match s with
  | EmptyString => EmptyString
  | String a s' =>
      match trimEnd s' c with
      | EmptyString => if Ascii.eqb a c then EmptyString else String a EmptyString
      | t => String a t
      end
  end.

(** [/^[a-zA-Z0-9]{1,12}$/.test(code)] *)
Definition asset_code_regex (code : string) : bool :=
  all_chars is_alnum code
  && (1 <=? String.length code)%nat && (String.length code <=? 12)%nat.

(** Decimal text of an integer: [Number.prototype.toString] on an integer
    valued number, and the text of a big number. *)
Definition decimal (z : Z) : string := NilZero.string_of_int (Z.to_int z).

(** The integer a text of the form [-?[0-9]+] spells. *)
Definition of_decimal (s : string) : option Z :=
  option_map Z.of_int (NilZero.int_of_string s).

(** ** Numbers *)

(** The value of an arithmetic operation on integer valued numbers: an
    integer that is a double, or an infinity. *)
Inductive number : Type :=
| Finite (z : Z)
| Infinite (negative : bool).

(** The integer [z] rounded to a significand of 53 bits, to the nearest and
    on a tie to the even significand. *)
Definition round53 (z : Z) : Z :=
  let a := Z.abs z in
  let sh := Z.log2 a - 52 in
  if sh <=? 0 then z
  else
    let q := a / 2 ^ sh in
    let r := a mod 2 ^ sh in
    let half := 2 ^ (sh - 1) in
    let q' := if (half <? r) || ((r =? half) && Z.odd q) then q + 1 else q in
    Z.sgn z * (q' * 2 ^ sh).

(** The double nearest to the integer [z]; a magnitude that rounds to 2^1024
    is beyond the largest double and gives an infinity. *)
Definition to_double (z : Z) : number :=
  let r := round53 z in
  if 2 ^ 1024 <=? Z.abs r then Infinite (z <? 0) else Finite r.

(** [x * y] on integer valued numbers: the exact product, rounded once. *)
Definition js_mul (x y : Z) : number := to_double (x * y).

(** ** Big numbers *)

(** Modelled from the spec: the arbitrary-precision integer collaborator
    (section 6; the source imports the package bignumber.js for it, which is
    not under [src/]).  A big number is an exact integer; it is read from
    decimal text [-?[0-9]+] and written as plain decimal text.  Text outside
    that form (fractions, exponents, non-numeric text) has no big number
    here; on non-numeric text such as [abc] the package raises. *)
Definition BigNumber : Type := Z.

Definition BigNumber_new (s : string) : result BigNumber :=
  of_option NotANumber (of_decimal s).

Definition BigNumber_add (x : BigNumber) (n : Z) : BigNumber := x + n.

Definition BigNumber_toString (x : BigNumber) : string := decimal x.

(** ** Primitive argument values *)

(** What a caller may pass where the source expects a string. *)
Inductive js_prim : Type :=
| JsUndefined
| JsNull
| JsBoolean (b : bool)
| JsNumber (n : Z)
| JsString (s : string).

(** lodash [isString] *)
Definition isString (v : js_prim) : bool :=
  match v with JsString _ => true | _ => false end.

(** ** Collaborators *)

(** Raw ed25519 key bytes. *)
Definition RawKey : Type := string.

(** What the three source files import from outside [src/]: the identity
    codec (strkey.js, keypair.js), the memo (memo.js), the operations and the
    64-bit integers of the XDR codec, and the host's rendering of a date.  A
    64-bit integer is held by its value; a function that raises in JS returns
    [None] where it does. *)
Class Collaborators : Type := {
  (** [StrKey.isValidEd25519PublicKey] *)
  isValidEd25519PublicKey : string -> bool;
  (** [StrKey.decodeEd25519PublicKey], as [Keypair.fromPublicKey] calls it *)
  decodeEd25519PublicKey : string -> option RawKey;
  (** [StrKey.encodeEd25519PublicKey] *)
  encodeEd25519PublicKey : RawKey -> string;
  (** [xdr.SequenceNumber.fromString] *)
  SequenceNumber_fromString : string -> option Z;
  (** [UnsignedHyper.fromString] *)
  UnsignedHyper_fromString : string -> option Z;
  (** [Date.prototype.toString] of a valid date, from its epoch milliseconds *)
  Date_toString : Z -> string;
  (** [text > 0], as the conversion of text to a number decides it, on text
      that is not of the form [-?[0-9]+]: blanks around the numeral, a sign
      [+], a fraction, an exponent, a radix prefix, [Infinity] *)
  ToNumber_positive : string -> bool;
  Memo : Type;
  XdrMemo : Type;
  (** [Memo.none()] *)
  Memo_none : Memo;
  (** [memo.toXDRObject()] *)
  Memo_toXDRObject : Memo -> XdrMemo;
  (** [xdr.Operation] *)
  Operation : Type
}.

(** The identity codec maps a valid identity to its key bytes and back
    (section 6 of the specification), and the empty text is no identity. *)
Class IdentityCodec (C : Collaborators) : Prop := {
  decode_encode : forall s,
    isValidEd25519PublicKey s = true ->
    exists k, decodeEd25519PublicKey s = Some k /\ encodeEd25519PublicKey k = s;
  empty_invalid : isValidEd25519PublicKey EmptyString = false
}.

(** [xdr.AccountId]: a public key of type ed25519. *)
Record AccountId : Type := publicKeyTypeEd25519 { ed25519 : RawKey }.

(** [Keypair.fromPublicKey(publicKey).xdrAccountId()] *)
Definition Keypair_xdrAccountId `{Collaborators} (publicKey : string) : result AccountId :=
  match decodeEd25519PublicKey publicKey with
  | Some k => Ok (publicKeyTypeEd25519 k)
  | None => Err InvalidPublicKey
  end.

(** ** The heap *)

Definition loc : Type := positive.

(** account.js: the fields of an [Account] object. *)
Record Account : Type := mkAccount {
  _accountId : string;
  sequence : BigNumber
}.

(** A value held by [minTime] or [maxTime] of a timebounds object. *)
Inductive time_value : Type :=
| TUndefined                (* the field is absent *)
| TNumber (n : Z)           (* an integer valued number *)
| TSeconds (ms : Z)         (* the number ms / 1000, as [getTime() / 1000] yields it *)
| TString (s : string)
| TDate (d : loc)           (* a reference to a [Date] *)
| THyper (u : Z).           (* an [UnsignedHyper], as [build] leaves it *)

Record TimeBounds : Type := mkTimeBounds {
  minTime : time_value;
  maxTime : time_value
}.

(** A [Date] is its epoch milliseconds, or [None] when invalid. *)
Record heap : Type := mkHeap {
  accounts : gmap loc Account;
  bounds : gmap loc TimeBounds;
  dates : gmap loc (option Z)
}.

Definition empty_heap : heap := mkHeap ∅ ∅ ∅.

Definition set_account (l : loc) (a : Account) (h : heap) : heap :=
  mkHeap (<[l := a]> (accounts h)) (bounds h) (dates h).

Definition set_bounds (l : loc) (tb : TimeBounds) (h : heap) : heap :=
  mkHeap (accounts h) (<[l := tb]> (bounds h)) (dates h).

(** [date.setTime(ms)] *)
Definition Date_setTime (d : loc) (ms : Z) (h : heap) : heap :=
  mkHeap (accounts h) (bounds h) (<[d := Some ms]> (dates h)).

Definition get_account (l : loc) (h : heap) : result Account :=
  of_option InvalidReference (accounts h !! l).

Definition get_bounds (l : loc) (h : heap) : result TimeBounds :=
  of_option InvalidReference (bounds h !! l).

Declare Scope result_scope.
Notation "'let*' x ':=' c 'in' k" :=
  (match c with Ok x => k | Err e => Err e end)
  (at level 10, x pattern, c at level 100, k at level 200) : result_scope.
Local Open Scope result_scope.

(** ** account.js *)

Section AccountModel.
Context `{C : Collaborators}.

(** [new Account(accountId, sequence)]: the new object and the heap
    holding it. *)
Definition Account_new (accountId : string) (sequence : js_prim) (h : heap)
  : result (loc * heap) :=
  if negb (isValidEd25519PublicKey accountId) then Err InvalidIdentity
  else match sequence with
       | JsString s =>
           let* n := BigNumber_new s in
           let l := fresh (dom (accounts h)) in
           Ok (l, set_account l (mkAccount accountId n) h)
       | _ => Err InvalidSequenceFormat       (* [!isString(sequence)] *)
       end.

Definition accountId (this : loc) (h : heap) : result string :=
  let* a := get_account this h in Ok (_accountId a).

Definition sequenceNumber (this : loc) (h : heap) : result string :=
  let* a := get_account this h in Ok (BigNumber_toString (sequence a)).

Definition incrementSequenceNumber (this : loc) (h : heap) : result heap :=
  let* a := get_account this h in
  Ok (set_account this (mkAccount (_accountId a) (BigNumber_add (sequence a) 1)) h).
End AccountModel.

(** ** asset.js *)

(** An [Asset] object; [issuer] is [None] when the field is [undefined]. *)
Record Asset : Type := mkAsset {
  code : string;
  issuer : option string
}.

(** [xdr.Asset]: the union of the three asset types. *)
Inductive xdr_Asset : Type :=
| assetTypeNative
| assetTypeCreditAlphanum4 (assetCode : string) (issuer : AccountId)
| assetTypeCreditAlphanum12 (assetCode : string) (issuer : AccountId).

(** The issuer argument as a condition: [undefined] and the empty text
    are falsy. *)
Definition truthy (issuer : option string) : bool :=
  match issuer with
  | None => false
  | Some s => negb (String.eqb s EmptyString)
  end.

Definition option_string_eqb (x y : option string) : bool :=
  match x, y with
  | None, None => true
  | Some a, Some b => String.eqb a b
  | _, _ => false
  end.

(** Line 87: the width of the code slot, 4 bytes or 12. *)
Definition padLength (code : string) : nat :=
  if (String.length code <=? 4)%nat then 4%nat else 12%nat.

Section AssetModel.
Context `{C : Collaborators}.

(** [new Asset(code, issuer)] *)
Definition Asset_new (code : string) (issuer : option string) : result Asset :=
  if negb (asset_code_regex code) then Err InvalidAssetCode
  else if negb (String.eqb (toLowerCase code) "xlm") && negb (truthy issuer)
  then Err MissingIssuer
  else if truthy issuer
          && negb (match issuer with
                   | Some i => isValidEd25519PublicKey i
                   | None => false
                   end)
  then Err InvalidIssuer
  else Ok (mkAsset code issuer).

(** [Asset.native()] *)
Definition Asset_native : result Asset := Asset_new "XLM" None.

Definition isNative (this : Asset) : bool := negb (truthy (issuer this)).

(** lodash [clone] of a text or of [undefined] is the value itself. *)
Definition getCode (this : Asset) : string := code this.
Definition getIssuer (this : Asset) : option string := issuer this.

Definition equals (this asset : Asset) : bool :=
  String.eqb (code this) (getCode asset)
  && option_string_eqb (issuer this) (getIssuer asset).

(** [toXDRObject()], the canonical form.  An asset that is not native has
    a truthy issuer, which [Keypair.fromPublicKey] decodes. *)
Definition toXDRObject (this : Asset) : result xdr_Asset :=
  if isNative this then Ok assetTypeNative
  else
    let paddedCode := padEnd (code this) (padLength (code this)) NUL in
    let* id := Keypair_xdrAccountId (default EmptyString (issuer this)) in
    if (String.length (code this) <=? 4)%nat
    then Ok (assetTypeCreditAlphanum4 paddedCode id)
    else Ok (assetTypeCreditAlphanum12 paddedCode id).

(** [Asset.fromOperation(assetXdr)], the decoder of the canonical form.
    The union has no fourth arm, so the [default] throw of the source has
    no input here. *)
Definition fromOperation (assetXdr : xdr_Asset) : result Asset :=
  match assetXdr with
  | assetTypeNative => Asset_native
  | assetTypeCreditAlphanum4 assetCode anum_issuer
  | assetTypeCreditAlphanum12 assetCode anum_issuer =>
      let issuer := encodeEd25519PublicKey (ed25519 anum_issuer) in
      let code := trimEnd assetCode NUL in
      Asset_new code (Some issuer)
  end.

(** [getAssetType()]; [None] is the [null] of the last line. *)
Definition getAssetType (this : Asset) : option string :=
  if isNative this then Some "native"
  else if (1 <=? String.length (code this))%nat && (String.length (code this) <=? 4)%nat
  then Some "credit_alphanum4"
  else if (5 <=? String.length (code this))%nat && (String.length (code this) <=? 12)%nat
  then Some "credit_alphanum12"
  else None.
End AssetModel.

(** ** transaction_builder.js *)

Definition BASE_FEE : Z := 100.
Definition TimeoutInfinite : Z := 0.

(** [v === 0]: strict equality holds for the number zero alone. *)
Definition strict_eq_zero (v : time_value) : bool :=
  match v with
  | TNumber n => n =? 0
  | TSeconds ms => ms =? 0
  | _ => false
  end.

(** [v > 0]: the operand is converted to a number first; [undefined] and an
    invalid date give NaN, which is not greater than zero.  Text that spells
    a decimal integer is greater than zero when the integer is; on any other
    text the conversion is [ToNumber_positive] of the collaborators. *)
Definition gt_zero `{Collaborators} (v : time_value) (h : heap) : bool :=
  match v with
  | TUndefined => false
  | TNumber n => 0 <? n
  | TSeconds ms => 0 <? ms
  | TString s =>
      match of_decimal s with
      | Some n => 0 <? n
      | None => ToNumber_positive s
      end
  | TDate d => match dates h !! d with Some (Some ms) => 0 <? ms | _ => false end
  | THyper u => 0 <? u
  end.

(** [isValidDate(d)]: [d instanceof Date && !isNaN(d)] *)
Definition isValidDate (v : time_value) (h : heap) : bool :=
  match v with
  | TDate d => match dates h !! d with Some (Some _) => true | _ => false end
  | _ => false
  end.

(** Decimal text of the fraction r / 1000, 0 < r < 1000, after the point. *)
Definition fraction_text (r : Z) : string :=
  if r mod 100 =? 0 then decimal (r / 100)
  else if r mod 10 =? 0 then decimal (r / 100) +:+ decimal (r / 10 mod 10)
  else decimal (r / 100) +:+ decimal (r / 10 mod 10) +:+ decimal (r mod 10).

(** [Number.prototype.toString] of the number ms / 1000. *)
Definition seconds_text (ms : Z) : string :=
  let a := Z.abs ms in
  if a mod 1000 =? 0 then decimal (ms / 1000)
  else (if ms <? 0 then "-" else "") +:+ decimal (a / 1000) +:+ "."
       +:+ fraction_text (a mod 1000).

Section BuilderModel.
Context `{C : Collaborators}.

(** [v.toString()]; on [undefined] the property read raises. *)
Definition toString (v : time_value) (h : heap) : result string :=
  match v with
  | TUndefined => Err TypeError
  | TNumber n => Ok (decimal n)
  | TSeconds ms => Ok (seconds_text ms)
  | TString s => Ok s
  | TDate d =>
      match dates h !! d with
      | Some (Some ms) => Ok (Date_toString ms)
      | Some None => Ok "Invalid Date"
      | None => Err InvalidReference
      end
  | THyper u => Ok (decimal u)
  end.

(** The options object of the constructor; [None] is an absent field. *)
Record Options : Type := mkOptions {
  opts_fee : option Z;
  opts_timebounds : option loc;
  opts_memo : option Memo
}.

(** [opts = {}] *)
Definition no_options : Options := mkOptions None None None.

Record TransactionBuilder : Type := mkBuilder {
  source : loc;                  (* the caller's [Account], by reference *)
  operations : list Operation;
  baseFee : Z;
  timebounds : option loc;       (* [null], or the builder's own object *)
  memo : option Memo;            (* [None] once [addMemo(null)] was called *)
  timeoutSet : bool
}.

(** Modelled from the spec: [Transaction] (transaction.js is not under
    [src/]) is the immutable snapshot of the attributes [build] collects:
    source identity, fee, sequence number, memo, optional time bounds,
    operations and the extension discriminant. *)
Record Transaction : Type := mkTransaction {
  tx_sourceAccount : AccountId;
  tx_fee : number;
  tx_seqNum : Z;
  tx_memo : option XdrMemo;
  tx_timeBounds : option (Z * Z);
  tx_operations : list Operation;
  tx_ext : Z
}.

(** lodash [clone(value)] of a timebounds object: a new object with the
    same field values, so a [Date] held by a field is shared; [clone] of
    [undefined] is [undefined]. *)
Definition clone (value : option loc) (h : heap) : result (option loc * heap) :=
  match value with
  | None => Ok (None, h)
  | Some l =>
      let* tb := get_bounds l h in
      let l' := fresh (dom (bounds h)) in
      Ok (Some l', set_bounds l' (mkTimeBounds (minTime tb) (maxTime tb)) h)
  end.

(** [new TransactionBuilder(sourceAccount, opts)].  The warning logged when
    [opts.fee] is undefined has no effect on the state. *)
Definition TransactionBuilder_new (sourceAccount : option loc) (opts : Options)
    (h : heap) : result (TransactionBuilder * heap) :=
  match sourceAccount with
  | None => Err MissingSourceAccount
  | Some src =>
      let* (tb, h') := clone (opts_timebounds opts) h in
      Ok (mkBuilder src []
            (match opts_fee opts with None => BASE_FEE | Some f => f end)
            tb
            (Some (default Memo_none (opts_memo opts)))
            false,
          h')
  end.

Definition addOperation (operation : Operation) (this : TransactionBuilder)
  : TransactionBuilder :=
  mkBuilder (source this) (operations this ++ [operation]) (baseFee this)
            (timebounds this) (memo this) (timeoutSet this).

Definition addMemo (m : option Memo) (this : TransactionBuilder)
  : TransactionBuilder :=
  mkBuilder (source this) (operations this) (baseFee this)
            (timebounds this) m (timeoutSet this).

(** [setTimeout(timeout)]; [now] is [Date.now()], in milliseconds. *)
Definition setTimeout (now timeout : Z) (this : TransactionBuilder) (h : heap)
  : result (TransactionBuilder * heap) :=
  let* old :=
    match timebounds this with
    | None => Ok None
    | Some l => let* tb := get_bounds l h in Ok (Some tb)
    end in
  if match old with Some tb => gt_zero (maxTime tb) h | None => false end
  then Err TimeBoundsConflict
  else if timeout <? 0 then Err NegativeTimeout
  else if 0 <? timeout then
    let timeoutTimestamp := now / 1000 + timeout in
    let l' := fresh (dom (bounds h)) in
    let tb' :=
      match old with
      | None => mkTimeBounds (TNumber 0) (TNumber timeoutTimestamp)
      | Some tb => mkTimeBounds (minTime tb) (TNumber timeoutTimestamp)
      end in
    Ok (mkBuilder (source this) (operations this) (baseFee this)
                  (Some l') (memo this) true,
        set_bounds l' tb' h)
  else
    Ok (mkBuilder (source this) (operations this) (baseFee this)
                  (timebounds this) (memo this) true,
        h).

(** Lines 154-158: no timebounds or a [maxTime] that is [=== 0], and
    [setTimeout] never called. *)
Definition timeout_undecided (this : TransactionBuilder) (h : heap) : result bool :=
  match timebounds this with
  | None => Ok (negb (timeoutSet this))
  | Some l =>
      let* tb := get_bounds l h in
      Ok (strict_eq_zero (maxTime tb) && negb (timeoutSet this))
  end.

(** [date.getTime()], on a value that is a valid date. *)
Definition getTime (v : time_value) (h : heap) : option Z :=
  match v with
  | TDate d => match dates h !! d with Some (Some ms) => Some ms | _ => None end
  | _ => None
  end.

(** Lines 177-182: a valid [Date] is replaced by [getTime() / 1000]. *)
Definition date_to_seconds (v : time_value) (h : heap) : time_value :=
  if isValidDate v h
  then match getTime v h with Some ms => TSeconds ms | None => v end
  else v.

(** Lines 184-189: [UnsignedHyper.fromString(v.toString())] *)
Definition to_hyper (v : time_value) (h : heap) : result Z :=
  let* s := toString v h in
  of_option InvalidHyperString (UnsignedHyper_fromString s).

(** Lines 176-192, on the builder's timebounds object [l]: the four
    assignments to its fields, stored at once, and the pair of bounds the
    transaction keeps. *)
Definition encode_timebounds (l : loc) (h : heap) : result ((Z * Z) * heap) :=
  let* tb := get_bounds l h in
  let min1 := date_to_seconds (minTime tb) h in
  let max1 := date_to_seconds (maxTime tb) h in
  let* umin := to_hyper min1 h in
  let* umax := to_hyper max1 h in
  Ok ((umin, umax), set_bounds l (mkTimeBounds (THyper umin) (THyper umax)) h).

(** Lines 176-192: [attrs.timeBounds], set when the builder has time
    bounds. *)
Definition build_timeBounds (this : TransactionBuilder) (h : heap)
  : result (option (Z * Z) * heap) :=
  match timebounds this with
  | None => Ok (None, h)
  | Some l => let* (tb, h') := encode_timebounds l h in Ok (Some tb, h')
  end.

(** [build()]: the transaction and the heap it leaves. *)
Definition build (this : TransactionBuilder) (h : heap)
  : result (Transaction * heap) :=
  let* undecided := timeout_undecided this h in
  if undecided then Err MissingTimeBounds
  else
    let* text := sequenceNumber (source this) h in
    let* n := BigNumber_new text in
    let sequenceNumber := BigNumber_add n 1 in
    let* id := accountId (source this) h in
    let* sourceAccount := Keypair_xdrAccountId id in
    let fee := js_mul (baseFee this) (Z.of_nat (length (operations this))) in
    let* seqNum :=
      of_option InvalidHyperString
        (SequenceNumber_fromString (BigNumber_toString sequenceNumber)) in
    let memo := option_map Memo_toXDRObject (memo this) in
    let* (timeBounds, h1) := build_timeBounds this h in
    let tx := mkTransaction sourceAccount fee seqNum memo timeBounds
                            (operations this) 0 in
    let* h2 := incrementSequenceNumber (source this) h1 in
    Ok (tx, h2).
End BuilderModel.

(** ** Observing the builder's time bounds *)

(** What a holder of a time value can read from it: the value itself, or,
    through a [Date] reference, the current state of the date. *)
Inductive observed : Type :=
| ObsValue (v : time_value)
| ObsDate (state : option (option Z)).

Definition observe (v : time_value) (h : heap) : observed :=
  match v with
  | TDate d => ObsDate (dates h !! d)
  | _ => ObsValue v
  end.

(** The time bounds a builder holds, as read in the heap [h]. *)
Definition stored_timebounds `{Collaborators} (this : TransactionBuilder) (h : heap)
  : option (observed * observed) :=
  match timebounds this with
  | None => None
  | Some l =>
      match bounds h !! l with
      | Some tb => Some (observe (minTime tb) h, observe (maxTime tb) h)
      | None => None
      end
  end.

(** [opts.timebounds.minTime = min; opts.timebounds.maxTime = max], done by
    the caller on the object [l] they passed. *)
Definition caller_assigns (l : loc) (min max : time_value) (h : heap) : heap :=
  set_bounds l (mkTimeBounds min max) h.

(** ** A stand-in for the collaborators *)

(** The example identity of account.js:11. *)
Definition sample_identity : string :=
  "GB3KJPLFUYN5VL6R3GU3EGCGVCKFDSD7BEDX42HWG5BWFKB3KQGJJRMA".

Definition in_range (lo hi : Z) (o : option Z) : option Z :=
  match o with
  | Some z => if (lo <=? z) && (z <? hi) then Some z else None
  | None => None
  end.

(** *** The conversion of ASCII text to a number *)

(** TAB, LF, VT, FF, CR and the space. *)
Definition is_blank (c : ascii) : bool :=
  let n := nat_of_ascii c in
  ((9 <=? n) && (n <=? 13) || (n =? 32))%nat.

Fixpoint trim_blank_start (s : string) : string :=
  match s with
  | EmptyString => EmptyString
  | String c s' => if is_blank c then trim_blank_start s' else s
  end.

Fixpoint trim_blank_end (s : string) : string :=
  match s with
  | EmptyString => EmptyString
  | String a s' =>
      match trim_blank_end s' with
      | EmptyString => if is_blank a then EmptyString else String a EmptyString
      | t => String a t
      end
  end.

Definition is_digit (c : ascii) : bool :=
  let n := nat_of_ascii c in ((48 <=? n) && (n <=? 57))%nat.

(** The decimal digits a text starts with, and what follows them. *)
Fixpoint span_digits (s : string) : string * string :=
  match s with
  | EmptyString => (EmptyString, EmptyString)
  | String c s' =>
      if is_digit c
      then let (d, r) := span_digits s' in (String c d, r)
      else (EmptyString, s)
  end.

(** The exponent of [[eE][+-]?[0-9]+]; the empty text has exponent 0. *)
Definition exponent_part (s : string) : option Z :=
  match s with
  | EmptyString => Some 0
  | String c r =>
      if Ascii.eqb c "e" || Ascii.eqb c "E" then
        match r with
        | String sign r' =>
            if Ascii.eqb sign "+" then
              (if all_chars is_digit r' then of_decimal r' else None)
            else if Ascii.eqb sign "-" then
              (if all_chars is_digit r' then option_map Z.opp (of_decimal r') else None)
            else if all_chars is_digit r then of_decimal r else None
        | EmptyString => None
        end
      else None
  end.

(** An unsigned decimal literal, [digits], [digits.], [digits.digits] or
    [.digits] with an optional exponent, whose nearest double is above zero:
    the value is above 2^-1075, half of the least positive double. *)
Definition decimal_positive (s : string) : bool :=
  let (int, r1) := span_digits s in
  let (frac, r2) :=
    match r1 with
    | String c r => if Ascii.eqb c "." then span_digits r else (EmptyString, r1)
    | EmptyString => (EmptyString, r1)
    end in
  match of_decimal (int +:+ frac), exponent_part r2 with
  | Some m, Some e =>
      let x := e - Z.of_nat (String.length frac) in
      if 0 <=? x then 0 <? m else 10 ^ (- x) <? m * 2 ^ 1075
  | _, _ => false
  end.

Definition is_radix_digit (radix : nat) (c : ascii) : bool :=
  let n := nat_of_ascii c in
  ((48 <=? n) && (n <? 48 + Nat.min radix 10)
   || (11 <=? radix) && ((65 <=? n) && (n <? 55 + radix) || (97 <=? n) && (n <? 87 + radix)))%nat.

(** A literal with a radix prefix, [0x], [0o] or [0b] in either letter case,
    whose value is above zero. *)
Definition radix_positive (s : string) : bool :=
  match s with
  | String z (String p ds) =>
      let n := nat_of_ascii p in
      let radix :=
        if ((n =? 120) || (n =? 88))%nat then 16%nat
        else if ((n =? 111) || (n =? 79))%nat then 8%nat
        else if ((n =? 98) || (n =? 66))%nat then 2%nat
        else 0%nat in
      Ascii.eqb z "0" && negb (radix =? 0)%nat
      && negb (String.eqb ds EmptyString)
      && all_chars (is_radix_digit radix) ds
      && negb (all_chars (Ascii.eqb "0") ds)
  | _ => false
  end.

(** [text > 0] on ASCII text: the blanks around the numeral are dropped, the
    empty text is zero, a numeral with the sign [-] is not above zero, and
    text that is no numeral is NaN. *)
Definition ascii_gt_zero (s : string) : bool :=
  let t := trim_blank_end (trim_blank_start s) in
  match t with
  | EmptyString => false
  | String c r =>
      if Ascii.eqb c "-" then false
      else if Ascii.eqb c "+" then String.eqb r "Infinity" || decimal_positive r
      else String.eqb t "Infinity" || radix_positive t || decimal_positive t
  end.

(** Collaborators to evaluate the model with: the identity check accepts the
    example identity and no other text, the codec reads the decimal text of a
    value in range, text is converted to a number as ASCII text is, and memos
    and operations carry no data. *)
Definition sample_collaborators : Collaborators := {|
  isValidEd25519PublicKey s := String.eqb s sample_identity;
  decodeEd25519PublicKey s :=
    if String.eqb s sample_identity then Some "raw-key-bytes" else None;
  encodeEd25519PublicKey _ := sample_identity;
  SequenceNumber_fromString s := in_range (- 2 ^ 63) (2 ^ 63) (of_decimal s);
  UnsignedHyper_fromString s := in_range 0 (2 ^ 64) (of_decimal s);
  Date_toString ms := decimal ms;
  ToNumber_positive := ascii_gt_zero;
  Memo := unit;
  XdrMemo := unit;
  Memo_none := tt;
  Memo_toXDRObject m := m;
  Operation := unit
|}.

(** A caller's heap with one account, and a timebounds object whose
    [maxTime] is a [Date]. *)
Definition sample_account : loc := 1%positive.
Definition sample_options_object : loc := 1%positive.
Definition sample_date : loc := 1%positive.

Definition sample_heap : heap :=
  mkHeap {[ sample_account := mkAccount sample_identity 100 ]}
         {[ sample_options_object := mkTimeBounds (TNumber 0) (TDate sample_date) ]}
         {[ sample_date := Some 1000000 ]}.

(** A builder on the sample account with no time bounds and no timeout. *)
Definition sample_unset_builder : @TransactionBuilder sample_collaborators :=
  @mkBuilder sample_collaborators sample_account [] 100 None (Some tt) false.

(** The builder after [addOperation] and [setTimeout(30)] at the time
    1700000000000 ms, and the heap that holds its time bounds. *)
Definition sample_builder_bounds : loc := 2%positive.

Definition sample_builder : @TransactionBuilder sample_collaborators :=
  @mkBuilder sample_collaborators sample_account [tt] 100
    (Some sample_builder_bounds) (Some tt) true.

Definition sample_builder_heap : heap :=
  set_bounds sample_builder_bounds
    (mkTimeBounds (TNumber 0) (TNumber 1700000030)) sample_heap.

(** An operation and a memo of the sample collaborators. *)
Definition sample_operation : @Operation sample_collaborators := tt.
Definition sample_memo : @Memo sample_collaborators := tt.

(** ** Repeated calls *)

(** [this.addOperation(op1).addOperation(op2)...], the chained calls of the
    class comment. *)
Definition addOperations `{Collaborators} (ops : list Operation)
    (this : TransactionBuilder) : TransactionBuilder :=
  fold_left (fun b op => addOperation op b) ops this.

(** [incrementSequenceNumber()] called [k] times on the account [this]. *)
Fixpoint increment_times (k : nat) (this : loc) (h : heap) : result heap :=
  match k with
  | O => Ok h
  | S k' =>
      match incrementSequenceNumber this h with
      | Ok h' => increment_times k' this h'
      | Err e => Err e
      end
  end.

(** The canonical form of an issued asset, as [toXDRObject] chooses it. *)
Definition canonical_form (code : string) (k : RawKey) : xdr_Asset :=
  if (String.length code <=? 4)%nat
  then assetTypeCreditAlphanum4 (padEnd code 4 NUL) (publicKeyTypeEd25519 k)
  else assetTypeCreditAlphanum12 (padEnd code 12 NUL) (publicKeyTypeEd25519 k).

(** ** network.js *)

(** [Networks.PUBLIC] and [Networks.TESTNET] *)
Definition Networks_PUBLIC : string := "osch public network".
Definition Networks_TESTNET : string := "osch test network".

(** A [Network] object. *)
Record Network : Type := mkNetwork { _networkPassphrase : string }.

(** The module variable [current]: [null] when the module is loaded. *)
Definition current_network : Type := option Network.
Definition current_at_load : current_network := None.

(** [Network.use(network)] *)
Definition Network_use (network : Network) (current : current_network)
  : current_network := Some network.

(** [Network.usePublicNetwork()] *)
Definition usePublicNetwork (current : current_network) : current_network :=
  Network_use (mkNetwork Networks_PUBLIC) current.

(** [Network.useTestNetwork()] *)
Definition useTestNetwork (current : current_network) : current_network :=
  Network_use (mkNetwork Networks_TESTNET) current.

(** [Network.current()] *)
Definition Network_current (current : current_network) : option Network := current.

(** [networkPassphrase()] *)
Definition networkPassphrase (this : Network) : string := _networkPassphrase this.

(** [networkId()]; [hash] is the SHA-256 of hashing.js, which is not under
    [src/]. *)
Definition networkId (hash : string -> string) (this : Network) : string :=
  hash (networkPassphrase this).

(** A call of one of the three static selectors. *)
Inductive network_call : Type :=
| call_usePublicNetwork
| call_useTestNetwork
| call_use (network : Network).

Definition run_call (c : network_call) (current : current_network)
  : current_network :=
  match c with
  | call_usePublicNetwork => usePublicNetwork current
  | call_useTestNetwork => useTestNetwork current
  | call_use n => Network_use n current
  end.

(** The calls of a program, in order. *)
Definition run_calls (cs : list network_call) (current : current_network)
  : current_network :=
  fold_left (fun cur c => run_call c cur) cs current.

(** The network a call selects. *)
Definition selected (c : network_call) : Network :=
  match c with
  | call_usePublicNetwork => mkNetwork Networks_PUBLIC
  | call_useTestNetwork => mkNetwork Networks_TESTNET
  | call_use n => n
  end.

(** ** Proof steps *)

(** Splits the conjunctions of the goal, and nothing else. *)
Ltac split_ands := repeat match goal with |- _ /\ _ => split end.

(** Destructs the scrutinee of the outermost [match] of the goal. *)
Ltac case_step :=
  match goal with
  | |- context [match ?x with _ => _ end] =>
      lazymatch x with
      | context [match _ with _ => _ end] => fail
      | _ => let E := fresh "E" in destruct x eqn:E
      end
  end.

(** * Properties *)

(** ** Decimal text *)

Lemma of_decimal_decimal (z : Z) : of_decimal (decimal z) = Some z.
Proof.
  unfold of_decimal, decimal.
  rewrite NilZero.isi.
  - simpl. now rewrite DecimalZ.of_to.
  - destruct z; simpl; try discriminate.
    intros [= E]. now apply (DecimalPos.Unsigned.to_uint_nonnil p).
  - destruct z; simpl; try discriminate.
    intros [= E]. now apply (DecimalPos.Unsigned.to_uint_nonnil p).
Qed.

Lemma BigNumber_new_toString (x : BigNumber) :
  BigNumber_new (BigNumber_toString x) = Ok x.
Proof.
  unfold BigNumber_new, BigNumber_toString. now rewrite of_decimal_decimal.
Qed.

(** ** Numbers *)

Lemma round53_exact (z : Z) : Z.abs z <= 2 ^ 53 -> round53 z = z.
Proof.
  intros Hz. unfold round53.
  destruct (Z.leb_spec (Z.log2 (Z.abs z) - 52) 0) as [|Hsh]; [reflexivity|].
  assert (Ha : 0 < Z.abs z).
  { destruct (Z.eq_dec (Z.abs z) 0) as [E|]; [|lia].
    rewrite E in Hsh. simpl in Hsh. lia. }
  assert (Hlog : ~ Z.log2 (Z.abs z) < 53) by lia.
  rewrite <- (Z.log2_lt_pow2 _ _ Ha) in Hlog.
  assert (E : z = 2 ^ 53 \/ z = - 2 ^ 53) by lia.
  destruct E as [-> | ->]; reflexivity.
Qed.

(** Up to 2^53 every integer is a double. *)
Lemma to_double_exact (z : Z) : Z.abs z <= 2 ^ 53 -> to_double z = Finite z.
Proof.
  intros Hz. unfold to_double. rewrite (round53_exact z Hz).
  assert (H : 2 ^ 53 < 2 ^ 1024) by (apply Z.pow_lt_mono_r; lia).
  destruct (Z.leb_spec (2 ^ 1024) (Z.abs z)); [lia|reflexivity].
Qed.

(** Beyond 2^53 only every other integer is a double, then every fourth:
    three times 2^53 - 1 is rounded down by one. *)
Lemma js_mul_beyond_2_53 :
  js_mul 9007199254740991 (Z.of_nat 3) = Finite 27021597764222972.
Proof. vm_compute. reflexivity. Qed.

(** ** Padding and trimming *)

Lemma length_repeat_char c n : String.length (repeat_char c n) = n.
Proof. induction n; simpl; congruence. Qed.

Lemma length_string_app (s t : string) :
  String.length (s +:+ t) = (String.length s + String.length t)%nat.
Proof. induction s; simpl; [reflexivity | now f_equal]. Qed.

Lemma length_padEnd s n c :
  String.length (padEnd s n c) = Nat.max n (String.length s).
Proof.
  unfold padEnd. rewrite length_string_app, length_repeat_char. lia.
Qed.

Lemma trimEnd_repeat_char c n : trimEnd (repeat_char c n) c = EmptyString.
Proof.
  induction n; simpl; [reflexivity|].
  rewrite IHn. now rewrite Ascii.eqb_refl.
Qed.

(** A text of alphanumeric characters does not end in a null byte, so
    trimming leaves it as it is. *)
Lemma trimEnd_alnum s : all_chars is_alnum s = true -> trimEnd s NUL = s.
Proof.
  induction s as [|a s IH]; simpl; [reflexivity|].
  intros [Ha Hs]%andb_prop. rewrite (IH Hs).
  destruct s; [|reflexivity].
  destruct (Ascii.eqb_spec a NUL) as [->|]; [discriminate Ha|reflexivity].
Qed.

Lemma trimEnd_app_alnum s t :
  all_chars is_alnum s = true -> s <> EmptyString ->
  trimEnd t NUL = EmptyString -> trimEnd (s +:+ t) NUL = s.
Proof.
  induction s as [|a s IH]; [congruence|].
  intros [Ha Hs]%andb_prop _ Ht. simpl.
  destruct s as [|b s].
  - change (EmptyString +:+ t) with t. rewrite Ht.
    destruct (Ascii.eqb_spec a NUL) as [->|]; [discriminate Ha|reflexivity].
  - rewrite (IH Hs); [reflexivity|discriminate|exact Ht].
Qed.

Lemma trimEnd_padEnd s n :
  all_chars is_alnum s = true -> trimEnd (padEnd s n NUL) NUL = s.
Proof.
  intros Hs. unfold padEnd.
  destruct s as [|a s].
  - simpl. apply trimEnd_repeat_char.
  - apply trimEnd_app_alnum; [exact Hs|discriminate|apply trimEnd_repeat_char].
Qed.

(** ** The heap *)

Lemma get_account_set_account l a h : get_account l (set_account l a h) = Ok a.
Proof. unfold get_account, set_account; simpl. now rewrite lookup_insert_eq. Qed.

(** ** account.js *)

Section AccountProperties.
Context `{C : Collaborators}.

Lemma Account_new_valid (id s : string) (n : Z) (h : heap) :
  isValidEd25519PublicKey id = true -> of_decimal s = Some n ->
  exists l, Account_new id (JsString s) h
            = Ok (l, set_account l (mkAccount id n) h).
Proof.
  intros Hid Hs. unfold Account_new, BigNumber_new.
  rewrite Hid, Hs. simpl. eauto.
Qed.

Lemma sequenceNumber_set_account l a h :
  sequenceNumber l (set_account l a h) = Ok (BigNumber_toString (sequence a)).
Proof. unfold sequenceNumber. now rewrite get_account_set_account. Qed.

Lemma incrementSequenceNumber_spec l a h :
  accounts h !! l = Some a ->
  incrementSequenceNumber l h
  = Ok (set_account l (mkAccount (_accountId a) (sequence a + 1)) h).
Proof.
  intros Ha. unfold incrementSequenceNumber, get_account. now rewrite Ha.
Qed.

(** C9, as the code has it: for every valid identity [id] and every text
    [s] that spells a non-negative integer [n] with [n + 1] below 10^21,
    [Account(id, s).sequenceNumber()] returns the plain decimal text of [n],
    which is [s] itself exactly when [s] is written with no leading zero, and
    after one [incrementSequenceNumber()] it returns the text of [n + 1]; the
    arithmetic is on unbounded integers, so nothing is lost beyond 64
    bits. *)
Theorem Account_sequence_exact (id s : string) (n : Z) (h : heap) :
  isValidEd25519PublicKey id = true ->
  of_decimal s = Some n ->
  0 <= n -> n + 1 < 10 ^ 21 ->
  exists l h1 h2,
    Account_new id (JsString s) h = Ok (l, h1)
    /\ accountId l h1 = Ok id
    /\ sequenceNumber l h1 = Ok (decimal n)
    /\ (sequenceNumber l h1 = Ok s <-> s = decimal n)
    /\ incrementSequenceNumber l h1 = Ok h2
    /\ sequenceNumber l h2 = Ok (decimal (n + 1)).
Proof.
  intros Hid Hs _ _.
  destruct (Account_new_valid id s n h Hid Hs) as [l Hnew].
  exists l, (set_account l (mkAccount id n) h).
  eexists. split; [exact Hnew|].
  split; [unfold accountId; now rewrite get_account_set_account|].
  split; [apply sequenceNumber_set_account|].
  split.
  { rewrite sequenceNumber_set_account. unfold BigNumber_toString. simpl.
    split; [now intros [= ->]|now intros ->]. }
  split.
  - apply incrementSequenceNumber_spec. simpl. apply lookup_insert_eq.
  - simpl. now rewrite sequenceNumber_set_account.
Qed.

(** C5, as the code has it: construction fails with [InvalidIdentity] when
    the identity fails the validity check; with a valid identity it fails
    with [InvalidSequenceFormat] for every sequence argument that is not a
    string, and the number parser rejects non-numeric text such as [abc];
    the decimal text of every integer, a negative one included, is accepted
    and stored. *)
Theorem Account_new_checks (id : string) (seq : js_prim) (n : Z) (h : heap) :
  (isValidEd25519PublicKey id = false ->
   Account_new id seq h = Err InvalidIdentity)
  /\ (isValidEd25519PublicKey id = true -> isString seq = false ->
      Account_new id seq h = Err InvalidSequenceFormat)
  /\ (isValidEd25519PublicKey id = true ->
      Account_new id (JsString "abc") h = Err NotANumber)
  /\ (isValidEd25519PublicKey id = true ->
      exists l h',
        Account_new id (JsString (decimal n)) h = Ok (l, h')
        /\ accounts h' !! l = Some (mkAccount id n)).
Proof.
  repeat split.
  - intros Hid. unfold Account_new. now rewrite Hid.
  - intros Hid Hseq. unfold Account_new. rewrite Hid.
    destruct seq; try reflexivity. discriminate Hseq.
  - intros Hid. unfold Account_new. now rewrite Hid.
  - intros Hid.
    destruct (Account_new_valid id (decimal n) n h Hid (of_decimal_decimal n))
      as [l Hnew].
    exists l. eexists. split; [exact Hnew|]. simpl. apply lookup_insert_eq.
Qed.
End AccountProperties.

Example increment_beyond_64_bits :
  decimal 18446744073709551615 = "18446744073709551615"
  /\ decimal (18446744073709551615 + 1) = "18446744073709551616".
Proof. split; reflexivity. Qed.

Section AccountSamples.
#[local] Existing Instance sample_collaborators.

Lemma Account_sequence_exact_witness :
  exists l h1 h2,
    Account_new sample_identity (JsString "18446744073709551615") empty_heap
    = Ok (l, h1)
    /\ accountId l h1 = Ok sample_identity
    /\ sequenceNumber l h1 = Ok (decimal 18446744073709551615)
    /\ (sequenceNumber l h1 = Ok "18446744073709551615"
        <-> "18446744073709551615" = decimal 18446744073709551615)
    /\ incrementSequenceNumber l h1 = Ok h2
    /\ sequenceNumber l h2 = Ok (decimal (18446744073709551615 + 1)).
Proof.
  apply (@Account_sequence_exact sample_collaborators);
    [reflexivity | reflexivity | lia | lia].
Defined.

(** C9 fails on the code: the text [007] spells a non-negative integer, the
    constructor accepts it, and [sequenceNumber()] returns [7]. *)
Lemma sequenceNumber_drops_leading_zeros :
  exists l h,
    Account_new sample_identity (JsString "007") empty_heap = Ok (l, h)
    /\ sequenceNumber l h = Ok "7"
    /\ sequenceNumber l h <> Ok "007".
Proof. do 2 eexists. split_ands; [reflexivity|reflexivity|discriminate]. Qed.

(** C5 fails on the code: the text [-1] is not a non-negative integer, and
    the constructor accepts it. *)
Lemma Account_new_accepts_negative :
  exists l h,
    Account_new sample_identity (JsString "-1")
      empty_heap = Ok (l, h)
    /\ sequenceNumber l h = Ok "-1".
Proof. do 2 eexists. split; reflexivity. Qed.

Lemma Account_new_checks_witness :
  Account_new "not an identity" (JsString "1") empty_heap
  = Err InvalidIdentity
  /\ Account_new sample_identity (JsNumber 7) empty_heap
     = Err InvalidSequenceFormat
  /\ Account_new sample_identity (JsString "abc") empty_heap
     = Err NotANumber
  /\ exists l h',
       Account_new sample_identity
         (JsString (decimal (-1))) empty_heap = Ok (l, h')
       /\ accounts h' !! l = Some (mkAccount sample_identity (-1)).
Proof.
  destruct (@Account_new_checks sample_collaborators "not an identity"
              (JsString "1") 0 empty_heap) as [H1 _].
  destruct (@Account_new_checks sample_collaborators sample_identity
              (JsNumber 7) (-1) empty_heap) as (_ & H2 & H3 & H4).
  split; [|split; [|split]];
    [apply H1 | apply H2 | apply H3 | apply H4]; reflexivity.
Defined.
End AccountSamples.

(** ** asset.js *)

Lemma asset_code_regex_spec c :
  asset_code_regex c = true ->
  all_chars is_alnum c = true /\ (1 <= String.length c <= 12)%nat.
Proof.
  unfold asset_code_regex.
  intros [[Ha H1]%andb_prop H2]%andb_prop.
  apply Nat.leb_le in H1, H2. auto.
Qed.

Section AssetProperties.
Context `{C : Collaborators}.

Lemma Asset_new_inv (code0 : string) (issuer0 : option string) (a : Asset) :
  Asset_new code0 issuer0 = Ok a ->
  a = mkAsset code0 issuer0
  /\ asset_code_regex code0 = true
  /\ (truthy issuer0 = false -> toLowerCase code0 = "xlm")
  /\ (truthy issuer0 = true ->
      exists i, issuer0 = Some i /\ isValidEd25519PublicKey i = true).
Proof.
  unfold Asset_new.
  destruct (asset_code_regex code0); simpl; [|discriminate].
  destruct (String.eqb_spec (toLowerCase code0) "xlm") as [Hx|Hx]; simpl.
  - destruct issuer0 as [i|]; simpl.
    + destruct (String.eqb i EmptyString); simpl.
      * intros [= <-]. repeat split; auto. discriminate.
      * destruct (isValidEd25519PublicKey i) eqn:Hi; simpl; [|discriminate].
        intros [= <-]. repeat split; eauto.
    + intros [= <-]. repeat split; auto. discriminate.
  - destruct issuer0 as [i|]; simpl; [|discriminate].
    destruct (String.eqb i EmptyString); simpl; [discriminate|].
    destruct (isValidEd25519PublicKey i) eqn:Hi; simpl; [|discriminate].
    intros [= <-]. repeat split; eauto. discriminate.
Qed.

(** C10: the native ticker in another letter case, [xlm] with no issuer,
    is accepted by the constructor and [isNative()] holds of the asset, yet
    it is not equal under [equals] to [Asset.native()], whose code is
    exactly [XLM]. *)
Theorem lowercase_native_differs_from_native :
  exists a native,
    Asset_new "xlm" None = Ok a
    /\ isNative a = true
    /\ Asset_native = Ok native
    /\ code native = "XLM"
    /\ isNative native = true
    /\ equals a native = false
    /\ equals native a = false.
Proof.
  exists (mkAsset "xlm" None), (mkAsset "XLM" None).
  repeat split; reflexivity.
Qed.

(** C6, as the code has it: of every asset the constructor returns, an
    absent (falsy) issuer implies that the code is the native ticker up to
    letter case, and an issuer that is present is a valid identity; the
    factory [native()] returns the code [XLM] with no issuer.  The converse
    is not checked: the native ticker may come with an issuer. *)
Theorem Asset_issuer_invariant (code0 : string) (issuer0 : option string) (a : Asset) :
  Asset_new code0 issuer0 = Ok a ->
  code a = code0 /\ issuer a = issuer0
  /\ (isNative a = true -> toLowerCase (code a) = "xlm")
  /\ (issuer a = None -> isNative a = true)
  /\ (isNative a = false ->
      exists i, issuer a = Some i /\ isValidEd25519PublicKey i = true)
  /\ Asset_native = Ok (mkAsset "XLM" None).
Proof.
  intros Hnew. apply Asset_new_inv in Hnew as (-> & _ & Hnat & Hiss).
  unfold isNative; simpl. repeat split.
  - intros Ht%negb_true_iff. auto.
  - now intros ->.
  - intros Ht%negb_false_iff. auto.
Qed.

Context `{!IdentityCodec C}.

Lemma valid_identity_truthy i :
  isValidEd25519PublicKey i = true -> truthy (Some i) = true.
Proof.
  intros Hi. simpl. destruct (String.eqb_spec i EmptyString) as [->|]; [|reflexivity].
  rewrite empty_invalid in Hi. discriminate.
Qed.

Lemma Asset_new_issued (code0 issuer0 : string) :
  asset_code_regex code0 = true -> isValidEd25519PublicKey issuer0 = true ->
  Asset_new code0 (Some issuer0) = Ok (mkAsset code0 (Some issuer0)).
Proof.
  intros Hc Hi. unfold Asset_new.
  rewrite Hc, (valid_identity_truthy _ Hi), Hi. simpl.
  now rewrite andb_false_r.
Qed.

Lemma equals_refl (a : Asset) : equals a a = true.
Proof.
  unfold equals, getCode, getIssuer. rewrite String.eqb_refl. simpl.
  destruct (issuer a); simpl; [apply String.eqb_refl|reflexivity].
Qed.

(** C4, as the code has it: for every valid code and valid issuer, the
    asset is built, its canonical form holds the code right-padded with null
    bytes in the 4-byte slot when the code has at most 4 characters and in
    the 12-byte slot when it has 5 to 12, trimming the null bytes gives the
    code back, and decoding the canonical form yields the original asset,
    equal under [equals]; and the asset of the factory [native()] decodes
    from its canonical form to itself.  (An asset built with no issuer from
    another spelling of the native ticker does not.) *)
Theorem Asset_canonical_round_trip (code0 issuer0 : string) :
  asset_code_regex code0 = true -> isValidEd25519PublicKey issuer0 = true ->
  (exists a k x a',
    Asset_new code0 (Some issuer0) = Ok a
    /\ decodeEd25519PublicKey issuer0 = Some k
    /\ toXDRObject a = Ok x
    /\ x = (if (String.length code0 <=? 4)%nat
            then assetTypeCreditAlphanum4 (padEnd code0 4 NUL) (publicKeyTypeEd25519 k)
            else assetTypeCreditAlphanum12 (padEnd code0 12 NUL) (publicKeyTypeEd25519 k))
    /\ String.length (padEnd code0 (padLength code0) NUL) = padLength code0
    /\ trimEnd (padEnd code0 (padLength code0) NUL) NUL = code0
    /\ fromOperation x = Ok a'
    /\ a' = a
    /\ equals a' a = true)
  /\ (exists native,
        Asset_native = Ok native
        /\ toXDRObject native = Ok assetTypeNative
        /\ fromOperation assetTypeNative = Ok native
        /\ equals native native = true).
Proof.
  intros Hc Hi.
  split; [|exists (mkAsset "XLM" None); split_ands; reflexivity].
  destruct (asset_code_regex_spec _ Hc) as [Hal [Hlo Hhi]].
  destruct (decode_encode issuer0 Hi) as (k & Hdec & Henc).
  exists (mkAsset code0 (Some issuer0)), k.
  assert (Hx : toXDRObject (mkAsset code0 (Some issuer0))
               = Ok (if (String.length code0 <=? 4)%nat
                     then assetTypeCreditAlphanum4 (padEnd code0 4 NUL)
                            (publicKeyTypeEd25519 k)
                     else assetTypeCreditAlphanum12 (padEnd code0 12 NUL)
                            (publicKeyTypeEd25519 k))).
  { unfold toXDRObject, isNative, Keypair_xdrAccountId, padLength.
    cbn [issuer code].
    rewrite (valid_identity_truthy _ Hi). simpl. rewrite Hdec.
    now destruct (String.length code0 <=? 4)%nat. }
  eexists. exists (mkAsset code0 (Some issuer0)).
  split; [now apply Asset_new_issued|].
  split; [exact Hdec|].
  split; [exact Hx|].
  split; [reflexivity|].
  split.
  { rewrite length_padEnd. unfold padLength.
    destruct (Nat.leb_spec (String.length code0) 4); lia. }
  split; [now apply trimEnd_padEnd|].
  split.
  { destruct (String.length code0 <=? 4)%nat; unfold fromOperation;
      cbn [ed25519]; rewrite Henc, trimEnd_padEnd by exact Hal;
      now apply Asset_new_issued. }
  split; [reflexivity|apply equals_refl].
Qed.

(** The native asset has no payload in its canonical form, and decodes to
    itself. *)
Lemma native_canonical_round_trip :
  toXDRObject (mkAsset "XLM" None) = Ok assetTypeNative
  /\ fromOperation assetTypeNative = Ok (mkAsset "XLM" None).
Proof. split; reflexivity. Qed.
End AssetProperties.

Lemma sample_identity_codec : IdentityCodec sample_collaborators.
Proof.
  split.
  - intros s Hs. exists "raw-key-bytes". simpl in *. rewrite Hs.
    split; [reflexivity|]. symmetry. now apply String.eqb_eq.
  - reflexivity.
Qed.

Section AssetSamples.
#[local] Existing Instance sample_collaborators.

Lemma Asset_issuer_invariant_witness :
code (mkAsset "USD" (Some sample_identity)) = "USD"
/\ issuer (mkAsset "USD" (Some sample_identity)) = Some sample_identity
/\ (isNative (mkAsset "USD" (Some sample_identity)) = true ->
    toLowerCase (code (mkAsset "USD" (Some sample_identity))) = "xlm")
/\ (issuer (mkAsset "USD" (Some sample_identity)) = None ->
    isNative (mkAsset "USD" (Some sample_identity)) = true)
/\ (isNative (mkAsset "USD" (Some sample_identity)) = false ->
    exists i, issuer (mkAsset "USD" (Some sample_identity)) = Some i
              /\ isValidEd25519PublicKey i = true)
/\ Asset_native = Ok (mkAsset "XLM" None).
Proof.
apply (@Asset_issuer_invariant sample_collaborators "USD" (Some sample_identity)).
reflexivity.
Defined.

(** C6 fails on the code: the constructor accepts the native ticker with an
  issuer, so an asset whose code is the native ticker carries one. *)
Lemma native_ticker_with_issuer :
exists a,
  Asset_new "XLM" (Some sample_identity) = Ok a
  /\ toLowerCase (code a) = "xlm"
  /\ issuer a = Some sample_identity
  /\ isNative a = false.
Proof. eexists. repeat split; reflexivity. Qed.

Lemma Asset_canonical_round_trip_witness :
(exists a k x a',
  Asset_new "LONGCODE12" (Some sample_identity) = Ok a
  /\ decodeEd25519PublicKey sample_identity = Some k
  /\ toXDRObject a = Ok x
  /\ x = assetTypeCreditAlphanum12 (padEnd "LONGCODE12" 12 NUL) (publicKeyTypeEd25519 k)
  /\ String.length (padEnd "LONGCODE12" 12 NUL) = 12%nat
  /\ trimEnd (padEnd "LONGCODE12" 12 NUL) NUL = "LONGCODE12"
  /\ fromOperation x = Ok a'
  /\ a' = a
  /\ equals a' a = true)
/\ (exists native,
      Asset_native = Ok native
      /\ toXDRObject native = Ok assetTypeNative
      /\ fromOperation assetTypeNative = Ok native
      /\ equals native native = true).
Proof.
apply (@Asset_canonical_round_trip sample_collaborators sample_identity_codec
         "LONGCODE12" sample_identity); reflexivity.
Defined.

(** C4 fails on the code: the constructor accepts [xlm] with no issuer, the
  canonical form of that asset is the native one, and it decodes to the
  asset with the code [XLM], which is not equal to the original. *)
Lemma lowercase_native_round_trip_fails :
exists a a',
  Asset_new "xlm" None = Ok a
  /\ toXDRObject a = Ok assetTypeNative
  /\ fromOperation assetTypeNative = Ok a'
  /\ code a' = "XLM"
  /\ equals a' a = false.
Proof. do 2 eexists. split_ands; reflexivity. Qed.

Example USD_canonical_form :
toXDRObject (mkAsset "USD" (Some sample_identity))
= Ok (assetTypeCreditAlphanum4 (String "U" (String "S" (String "D" (String NUL EmptyString))))
        (publicKeyTypeEd25519 "raw-key-bytes")).
Proof. reflexivity. Qed.
End AssetSamples.

(** ** transaction_builder.js *)

Lemma TimeBounds_eta tb : mkTimeBounds (minTime tb) (maxTime tb) = tb.
Proof. now destruct tb. Qed.

Lemma fresh_bounds_None (h : heap) : bounds h !! fresh (dom (bounds h)) = None.
Proof. apply not_elem_of_dom, is_fresh. Qed.

Lemma gt_zero_set_bounds `{Collaborators} v l tb h :
  gt_zero v (set_bounds l tb h) = gt_zero v h.
Proof. now destruct v. Qed.

Lemma observe_set_bounds v l tb h : observe v (set_bounds l tb h) = observe v h.
Proof. now destruct v. Qed.

Section BuilderProperties.
Context `{C : Collaborators}.

Lemma clone_object l tb h :
  bounds h !! l = Some tb ->
  exists l',
    clone (Some l) h = Ok (Some l', set_bounds l' tb h)
    /\ l' <> l /\ bounds h !! l' = None.
Proof.
  intros Hl. exists (fresh (dom (bounds h))).
  unfold clone, get_bounds. rewrite Hl. simpl. rewrite TimeBounds_eta.
  split; [reflexivity|]. split; [|apply fresh_bounds_None].
  intros E. pose proof (fresh_bounds_None h) as Hn.
  rewrite E, Hl in Hn. discriminate.
Qed.

Lemma TransactionBuilder_new_timebounds src opts l tb h :
  opts_timebounds opts = Some l -> bounds h !! l = Some tb ->
  exists l',
    l' <> l /\ bounds h !! l' = None
    /\ TransactionBuilder_new (Some src) opts h
       = Ok (mkBuilder src []
               (match opts_fee opts with None => BASE_FEE | Some f => f end)
               (Some l') (Some (default Memo_none (opts_memo opts))) false,
             set_bounds l' tb h).
Proof.
  intros Ho Hl. destruct (clone_object l tb h Hl) as (l' & Hc & Hne & Hn).
  exists l'. split; [exact Hne|]. split; [exact Hn|].
  unfold TransactionBuilder_new. now rewrite Ho, Hc.
Qed.

Lemma TransactionBuilder_new_plain src opts h :
  opts_timebounds opts = None ->
  TransactionBuilder_new (Some src) opts h
  = Ok (mkBuilder src []
          (match opts_fee opts with None => BASE_FEE | Some f => f end)
          None (Some (default Memo_none (opts_memo opts))) false, h).
Proof. intros Ho. unfold TransactionBuilder_new. now rewrite Ho. Qed.

(** *** setTimeout *)

Lemma setTimeout_conflict now t this h l tb :
  timebounds this = Some l -> bounds h !! l = Some tb ->
  gt_zero (maxTime tb) h = true ->
  setTimeout now t this h = Err TimeBoundsConflict.
Proof.
  intros Ht Hl Hgt. unfold setTimeout, get_bounds.
  rewrite Ht, Hl. simpl. now rewrite Hgt.
Qed.

Lemma setTimeout_positive_inv now t this h this' h' :
  0 < t -> setTimeout now t this h = Ok (this', h') ->
  exists l' min,
    timebounds this' = Some l'
    /\ bounds h' !! l' = Some (mkTimeBounds min (TNumber (now / 1000 + t)))
    /\ dates h' = dates h
    /\ timeoutSet this' = true.
Proof.
  intros Ht. unfold setTimeout.
  assert (Hneg : (t <? 0) = false) by (apply Z.ltb_ge; lia).
  assert (Hpos : (0 <? t) = true) by (apply Z.ltb_lt; lia).
  destruct (timebounds this) as [l|]; simpl.
  - destruct (get_bounds l h) as [tb|e]; simpl; [|discriminate].
    destruct (gt_zero (maxTime tb) h); [discriminate|].
    rewrite Hneg, Hpos. intros [= <- <-]. simpl.
    do 2 eexists. split; [reflexivity|]. now rewrite lookup_insert_eq.
  - rewrite Hneg, Hpos. intros [= <- <-]. simpl.
    do 2 eexists. split; [reflexivity|]. now rewrite lookup_insert_eq.
Qed.

Lemma setTimeout_zero now this h :
  timebounds this = None ->
  setTimeout now 0 this h
  = Ok (mkBuilder (source this) (operations this) (baseFee this) None
          (memo this) true, h).
Proof. intros Ht. unfold setTimeout. now rewrite Ht. Qed.

Lemma setTimeout_negative now t this h :
  t < 0 ->
  timebounds this = None
  \/ (exists l tb, timebounds this = Some l /\ bounds h !! l = Some tb
                   /\ gt_zero (maxTime tb) h = false) ->
  setTimeout now t this h = Err NegativeTimeout.
Proof.
  intros Ht Hc. unfold setTimeout, get_bounds.
  assert (Hneg : (t <? 0) = true) by (apply Z.ltb_lt; lia).
  destruct Hc as [Hn|(l & tb & Hs & Hl & Hgt)].
  - rewrite Hn. simpl. now rewrite Hneg.
  - rewrite Hs, Hl. simpl. now rewrite Hgt, Hneg.
Qed.

(** C7, as the code has it: [setTimeout] fails with [TimeBoundsConflict]
    whenever the builder's time bounds hold a [maxTime > 0], whether the
    constructor options supplied it or an earlier [setTimeout] with positive
    seconds set it, and whatever the argument; on a builder with no such
    [maxTime] it fails with [NegativeTimeout] for every negative argument.
    A call after [setTimeout(0)] is no conflict. *)
Theorem setTimeout_failures (now t : Z) (this : TransactionBuilder) (h : heap) :
  (forall l tb,
      timebounds this = Some l -> bounds h !! l = Some tb ->
      gt_zero (maxTime tb) h = true ->
      setTimeout now t this h = Err TimeBoundsConflict)
  /\ (forall src opts l tb,
         opts_timebounds opts = Some l -> bounds h !! l = Some tb ->
         gt_zero (maxTime tb) h = true ->
         exists b h1,
           TransactionBuilder_new (Some src) opts h = Ok (b, h1)
           /\ setTimeout now t b h1 = Err TimeBoundsConflict)
  /\ (forall now0 t0 this' h',
         0 <= now0 -> 0 < t0 ->
         setTimeout now0 t0 this h = Ok (this', h') ->
         setTimeout now t this' h' = Err TimeBoundsConflict)
  /\ (t < 0 ->
      timebounds this = None
      \/ (exists l tb, timebounds this = Some l /\ bounds h !! l = Some tb
                       /\ gt_zero (maxTime tb) h = false) ->
      setTimeout now t this h = Err NegativeTimeout)
  /\ (timebounds this = None ->
      exists this',
        setTimeout now 0 this h = Ok (this', h)
        /\ timeoutSet this' = true
        /\ (0 <= t -> is_Ok (setTimeout now t this' h) = true)).
Proof.
  split; [|split; [|split; [|split]]].
  - intros l tb. apply setTimeout_conflict.
  - intros src opts l tb Ho Hl Hgt.
    destruct (TransactionBuilder_new_timebounds src opts l tb h Ho Hl)
      as (l' & _ & _ & Hnew).
    do 2 eexists. split; [exact Hnew|].
    apply (setTimeout_conflict _ _ _ _ l' tb); simpl.
    + reflexivity.
    + apply lookup_insert_eq.
    + now rewrite gt_zero_set_bounds.
  - intros now0 t0 this' h' Hnow Ht0 Hset.
    destruct (setTimeout_positive_inv _ _ _ _ _ _ Ht0 Hset)
      as (l' & min & Htb & Hl & _ & _).
    apply (setTimeout_conflict _ _ _ _ _ _ Htb Hl). simpl.
    apply Z.ltb_lt. pose proof (Z.div_pos now0 1000 Hnow). lia.
  - apply setTimeout_negative.
  - intros Hn. eexists. split; [now apply setTimeout_zero|].
    split; [reflexivity|]. intros Ht.
    unfold setTimeout. simpl.
    assert (Hneg : (t <? 0) = false) by (apply Z.ltb_ge; lia).
    rewrite Hneg. now destruct (0 <? t).
Qed.

(** *** The copy of the time bounds *)

(** C8, as the code has it: the constructor stores a shallow copy of the
    caller's timebounds object.  The copy is a new object with the same
    field values, so whatever the caller later assigns to the fields of their
    own object leaves the builder's time bounds as they were.  A [Date] held
    by a field is not copied: the builder and the caller share it. *)
Theorem timebounds_shallow_copy (src l : loc) (opts : Options)
    (tb : TimeBounds) (h : heap) :
  opts_timebounds opts = Some l -> bounds h !! l = Some tb ->
  exists b h1 l',
    TransactionBuilder_new (Some src) opts h = Ok (b, h1)
    /\ timebounds b = Some l' /\ l' <> l
    /\ bounds h1 !! l' = Some tb
    /\ bounds h1 !! l = Some tb
    /\ dates h1 = dates h
    /\ forall min max,
        bounds (caller_assigns l min max h1) !! l' = Some tb
        /\ stored_timebounds b (caller_assigns l min max h1)
           = stored_timebounds b h1.
Proof.
  intros Ho Hl.
  destruct (TransactionBuilder_new_timebounds src opts l tb h Ho Hl)
    as (l' & Hne & Hn & Hnew).
  do 2 eexists. exists l'. split; [exact Hnew|]. simpl.
  split; [reflexivity|]. split; [exact Hne|].
  split; [apply lookup_insert_eq|].
  split; [now rewrite lookup_insert_ne|].
  split; [reflexivity|].
  intros min max.
  assert (Hl' : bounds (caller_assigns l min max (set_bounds l' tb h)) !! l'
                = Some tb).
  { simpl. rewrite lookup_insert_ne by congruence. apply lookup_insert_eq. }
  split; [exact Hl'|].
  unfold stored_timebounds. cbn [timebounds]. rewrite Hl'.
  unfold caller_assigns. rewrite !observe_set_bounds.
  simpl. now rewrite lookup_insert_eq, !observe_set_bounds.
Qed.

(** *** build *)

Lemma timeout_undecided_error this h e :
  timeout_undecided this h = Err e -> e = InvalidReference.
Proof.
  unfold timeout_undecided, get_bounds.
  destruct (timebounds this) as [l|]; [|discriminate].
  destruct (bounds h !! l); simpl; [discriminate|congruence].
Qed.

Lemma build_timeBounds_frame this h tbs h1 :
  build_timeBounds this h = Ok (tbs, h1) ->
  accounts h1 = accounts h /\ dates h1 = dates h.
Proof.
  unfold build_timeBounds, encode_timebounds.
  destruct (timebounds this) as [l|]; [|now intros [= <- <-]].
  repeat (case_step; try discriminate).
  intros [= <- <-]. now split.
Qed.

(** What a successful [build()] has done, step by step. *)
Lemma build_Ok_inv this h tx h' :
  build this h = Ok (tx, h') ->
  exists a k sq tbs h1,
    timeout_undecided this h = Ok false
    /\ accounts h !! source this = Some a
    /\ decodeEd25519PublicKey (_accountId a) = Some k
    /\ SequenceNumber_fromString (decimal (sequence a + 1)) = Some sq
    /\ build_timeBounds this h = Ok (tbs, h1)
    /\ tx = mkTransaction (publicKeyTypeEd25519 k)
              (js_mul (baseFee this) (Z.of_nat (length (operations this)))) sq
              (option_map Memo_toXDRObject (memo this)) tbs (operations this) 0
    /\ h' = set_account (source this)
              (mkAccount (_accountId a) (sequence a + 1)) h1.
Proof.
  unfold build, sequenceNumber, accountId, incrementSequenceNumber, get_account,
    Keypair_xdrAccountId.
  destruct (timeout_undecided this h) as [[|]|e]; try discriminate.
  destruct (accounts h !! source this) as [a|] eqn:Ha; simpl; [|discriminate].
  rewrite BigNumber_new_toString.
  destruct (decodeEd25519PublicKey (_accountId a)) as [k|] eqn:Hk; [|discriminate].
  unfold BigNumber_toString, BigNumber_add.
  destruct (SequenceNumber_fromString (decimal (sequence a + 1))) as [sq|] eqn:Hs;
    simpl; [|discriminate].
  destruct (build_timeBounds this h) as [[tbs h1]|e] eqn:Ht; [|discriminate].
  destruct (build_timeBounds_frame _ _ _ _ Ht) as [Hacc _].
  rewrite Hacc, Ha. simpl. intros [= <- <-].
  exists a, k, sq, tbs, h1. repeat split; try reflexivity; assumption.
Qed.

Lemma build_Ok_intro this h a k sq tbs h1 :
  timeout_undecided this h = Ok false ->
  accounts h !! source this = Some a ->
  decodeEd25519PublicKey (_accountId a) = Some k ->
  SequenceNumber_fromString (decimal (sequence a + 1)) = Some sq ->
  build_timeBounds this h = Ok (tbs, h1) ->
  build this h
  = Ok (mkTransaction (publicKeyTypeEd25519 k)
          (js_mul (baseFee this) (Z.of_nat (length (operations this)))) sq
          (option_map Memo_toXDRObject (memo this)) tbs (operations this) 0,
        set_account (source this)
          (mkAccount (_accountId a) (sequence a + 1)) h1).
Proof.
  intros Hu Ha Hk Hs Ht.
  unfold build, sequenceNumber, accountId, incrementSequenceNumber, get_account,
    Keypair_xdrAccountId.
  rewrite Hu, Ha. simpl. rewrite BigNumber_new_toString, Hk.
  unfold BigNumber_toString, BigNumber_add. rewrite Hs. simpl. rewrite Ht.
  destruct (build_timeBounds_frame _ _ _ _ Ht) as [Hacc _].
  now rewrite Hacc, Ha.
Qed.

(** The guard of lines 154-162 is the only source of [MissingTimeBounds]. *)
Lemma build_MissingTimeBounds_iff this h :
  build this h = Err MissingTimeBounds <-> timeout_undecided this h = Ok true.
Proof.
  split.
  - unfold build.
    destruct (timeout_undecided this h) as [[|]|e] eqn:Hu; [reflexivity| |].
    + unfold sequenceNumber, accountId, incrementSequenceNumber, get_account,
        Keypair_xdrAccountId, BigNumber_new, build_timeBounds, encode_timebounds,
        to_hyper, toString, get_bounds, of_option.
      repeat (case_step; try discriminate).
    + apply timeout_undecided_error in Hu. subst e. discriminate.
  - intros Hu. unfold build. now rewrite Hu.
Qed.

(** C1: for every builder whose time-bounds decision has been made and whose
    data the collaborators encode (the identity of the source account, the
    text of the next sequence number, the time bounds if any), [build()]
    returns a transaction; its [seqNum] is what the codec reads from the
    decimal text of the account's sequence before the build plus 1, and the
    source account, read through the shared reference, has its sequence
    incremented by exactly 1.  No other account changes. *)
Theorem build_increments_sequence (this : TransactionBuilder) (h : heap)
    (a : Account) (k : RawKey) (sq : Z) (tbs : option (Z * Z)) (h1 : heap) :
  accounts h !! source this = Some a ->
  timeout_undecided this h = Ok false ->
  decodeEd25519PublicKey (_accountId a) = Some k ->
  SequenceNumber_fromString (decimal (sequence a + 1)) = Some sq ->
  build_timeBounds this h = Ok (tbs, h1) ->
  exists tx h',
    build this h = Ok (tx, h')
    /\ tx_seqNum tx = sq
    /\ sequenceNumber (source this) h = Ok (decimal (sequence a))
    /\ sequenceNumber (source this) h' = Ok (decimal (sequence a + 1))
    /\ accounts h' !! source this
       = Some (mkAccount (_accountId a) (sequence a + 1))
    /\ forall l, l <> source this -> accounts h' !! l = accounts h !! l.
Proof.
  intros Ha Hu Hk Hs Ht.
  do 2 eexists. split; [exact (build_Ok_intro _ _ _ _ _ _ _ Hu Ha Hk Hs Ht)|].
  destruct (build_timeBounds_frame _ _ _ _ Ht) as [Hacc _].
  split; [reflexivity|].
  split; [unfold sequenceNumber, get_account; now rewrite Ha|].
  split; [now rewrite sequenceNumber_set_account|].
  split; [simpl; apply lookup_insert_eq|].
  intros l Hl. simpl. rewrite lookup_insert_ne by congruence. now rewrite Hacc.
Qed.

(** C3, as the code has it: a successful [build()] of a builder with base
    fee [f] and [k] operations returns a transaction whose fee is the product
    [f * k] of two numbers, with no minimum and no maximum: the fee is exactly
    [f * k] whenever the magnitude of [f * k] is at most 2^53, with no
    operation it is 0, and beyond 2^53 it is the double nearest to [f * k]. *)
Theorem build_fee (this : TransactionBuilder) (h : heap)
    (tx : Transaction) (h' : heap) :
  build this h = Ok (tx, h') ->
  tx_fee tx = to_double (baseFee this * Z.of_nat (length (operations this)))
  /\ tx_operations tx = operations this
  /\ (Z.abs (baseFee this * Z.of_nat (length (operations this))) <= 2 ^ 53 ->
      tx_fee tx = Finite (baseFee this * Z.of_nat (length (operations this))))
  /\ (operations this = [] -> tx_fee tx = Finite 0).
Proof.
  intros Hb. apply build_Ok_inv in Hb as (a & k & sq & tbs & h1 & _ & _ & _ & _ & _ & -> & _).
  cbn [tx_fee tx_operations]. unfold js_mul. split_ands; try reflexivity.
  - apply to_double_exact.
  - intros ->. simpl. now rewrite Z.mul_0_r.
Qed.

Lemma addOperation_length op this :
  length (operations (addOperation op this)) = S (length (operations this)).
Proof. simpl. rewrite length_app. simpl. lia. Qed.

(** *** The guard and an absent [maxTime] *)

(** C2 on the input the guard misses: a builder made with time bounds that
    have no [maxTime], and no call of [setTimeout].  The guard does not fire,
    so [build()] does not fail with [MissingTimeBounds]; it goes on and cannot
    return a transaction, for [maxTime.toString()] raises. *)
Theorem build_absent_maxTime (src l : loc) (opts : Options)
    (min : time_value) (h : heap) :
  opts_timebounds opts = Some l ->
  bounds h !! l = Some (mkTimeBounds min TUndefined) ->
  exists b h1,
    TransactionBuilder_new (Some src) opts h = Ok (b, h1)
    /\ timeoutSet b = false
    /\ timeout_undecided b h1 = Ok false
    /\ build b h1 <> Err MissingTimeBounds
    /\ is_Ok (build b h1) = false.
Proof.
  intros Ho Hl.
  destruct (TransactionBuilder_new_timebounds src opts l _ h Ho Hl)
    as (l' & _ & _ & Hnew).
  do 2 eexists. split; [exact Hnew|]. split; [reflexivity|].
  match goal with |- ?U = _ /\ _ => assert (Hu : U = Ok false) end.
  { unfold timeout_undecided, get_bounds. simpl. now rewrite lookup_insert_eq. }
  split; [exact Hu|]. split.
  - rewrite build_MissingTimeBounds_iff, Hu. discriminate.
  - match goal with |- is_Ok ?B = false => destruct B as [[tx h']|e] eqn:Hb end;
      [|reflexivity].
    apply build_Ok_inv in Hb as (a & k & sq & tbs & h1 & _ & _ & _ & _ & Ht & _).
    revert Ht. unfold build_timeBounds, encode_timebounds, get_bounds. simpl.
    rewrite lookup_insert_eq. simpl.
    destruct (to_hyper _ _); simpl; discriminate.
Qed.

(** On time bounds of the specification's data model, a [maxTime] that is a
    number of seconds not below zero, the guard is the one of the claim: it
    fires exactly when [maxTime] is not positive and [setTimeout] was never
    called. *)
Lemma timeout_undecided_numeric this h l min n :
  timebounds this = Some l -> bounds h !! l = Some (mkTimeBounds min (TNumber n)) ->
  0 <= n ->
  timeout_undecided this h
  = Ok (negb (gt_zero (TNumber n) h) && negb (timeoutSet this)).
Proof.
  intros Ht Hl Hn. unfold timeout_undecided, get_bounds. rewrite Ht, Hl. simpl.
  f_equal. f_equal.
  destruct (Z.eqb_spec n 0) as [->|]; [reflexivity|].
  symmetry. apply negb_false_iff, Z.ltb_lt. lia.
Qed.

(** After a sole [setTimeout(0)], with no other bounds, [build()] returns a
    transaction, provided the collaborators encode the account. *)
Lemma build_after_setTimeout_zero now src opts h a k sq :
  opts_timebounds opts = None ->
  accounts h !! src = Some a ->
  decodeEd25519PublicKey (_accountId a) = Some k ->
  SequenceNumber_fromString (decimal (sequence a + 1)) = Some sq ->
  exists b0 b1 tx h',
    TransactionBuilder_new (Some src) opts h = Ok (b0, h)
    /\ build b0 h = Err MissingTimeBounds
    /\ setTimeout now TimeoutInfinite b0 h = Ok (b1, h)
    /\ build b1 h = Ok (tx, h')
    /\ tx_timeBounds tx = None.
Proof.
  intros Ho Ha Hk Hs.
  do 4 eexists.
  split; [now apply TransactionBuilder_new_plain|].
  split; [reflexivity|].
  split; [now apply setTimeout_zero|].
  split; [apply (build_Ok_intro _ _ a k sq None h); auto|reflexivity].
Qed.
End BuilderProperties.

(** ** The model on sample inputs *)

Section BuilderSamples.
#[local] Existing Instance sample_collaborators.

Lemma build_increments_sequence_witness :
  exists tx h',
    build sample_builder sample_builder_heap = Ok (tx, h')
    /\ tx_seqNum tx = 101
    /\ sequenceNumber (source sample_builder) sample_builder_heap = Ok "100"
    /\ sequenceNumber (source sample_builder) h' = Ok "101"
    /\ accounts h' !! source sample_builder
       = Some (mkAccount sample_identity 101)
    /\ forall l, l <> source sample_builder ->
                 accounts h' !! l = accounts sample_builder_heap !! l.
Proof.
  apply (build_increments_sequence sample_builder sample_builder_heap
           (mkAccount sample_identity 100) "raw-key-bytes" 101
           (Some (0, 1700000030))
           (set_bounds sample_builder_bounds (mkTimeBounds (THyper 0) (THyper 1700000030))
              sample_builder_heap));
    reflexivity.
Defined.

(** The end-to-end example of the specification: base fee 100, one
    operation, [setTimeout(30)], on the account with sequence 100. *)
Example sample_build :
  exists b0 h0 tx h',
    TransactionBuilder_new (Some sample_account) (mkOptions (Some 100) None None)
      sample_heap = Ok (b0, h0)
    /\ setTimeout 1700000000000 30 (addOperation tt b0) h0
       = Ok (sample_builder, sample_builder_heap)
    /\ build sample_builder sample_builder_heap = Ok (tx, h')
    /\ tx_fee tx = Finite 100 /\ tx_seqNum tx = 101
    /\ tx_timeBounds tx = Some (0, 1700000030)
    /\ sequenceNumber sample_account h' = Ok "101".
Proof. do 4 eexists. split_ands; reflexivity. Qed.

Lemma build_fee_witness :
  exists tx h',
    build sample_builder sample_builder_heap = Ok (tx, h')
    /\ tx_fee tx = to_double (100 * 1)
    /\ tx_operations tx = [tt]
    /\ (Z.abs (100 * 1) <= 2 ^ 53 -> tx_fee tx = Finite (100 * 1))
    /\ (operations sample_builder = [] -> tx_fee tx = Finite 0).
Proof.
  destruct (build sample_builder sample_builder_heap) as [[tx h']|e] eqn:Hb;
    [|discriminate Hb].
  exists tx, h'. split; [reflexivity|].
  exact (build_fee sample_builder sample_builder_heap tx h' Hb).
Defined.

(** C3 fails on the code beyond 2^53: with the base fee 2^53 - 1 and three
    operations the fee of the transaction is 27021597764222972, and the
    product of 9007199254740991 and 3 is 27021597764222973. *)
Lemma build_fee_rounded :
  exists tx h',
    build (mkBuilder sample_account
             [sample_operation; sample_operation; sample_operation]
             9007199254740991 None (Some sample_memo) true) sample_heap
    = Ok (tx, h')
    /\ tx_fee tx = Finite 27021597764222972
    /\ tx_fee tx <> Finite (9007199254740991 * 3).
Proof.
  do 2 eexists. split.
  - apply (build_Ok_intro _ _ (mkAccount sample_identity 100) "raw-key-bytes"
             101 None sample_heap); reflexivity.
  - cbn [tx_fee baseFee operations length]. rewrite js_mul_beyond_2_53.
    split; [reflexivity|]. intros [=].
Qed.

Example no_operation_no_fee :
  exists b0 h0 b1 tx h',
    TransactionBuilder_new (Some sample_account) (mkOptions (Some 100) None None)
      sample_heap = Ok (b0, h0)
    /\ setTimeout 1700000000000 TimeoutInfinite b0 h0 = Ok (b1, h0)
    /\ build b1 h0 = Ok (tx, h')
    /\ tx_fee tx = Finite 0 /\ tx_timeBounds tx = None.
Proof. do 5 eexists. split_ands; reflexivity. Qed.

Lemma build_absent_maxTime_witness :
  exists b h1,
    TransactionBuilder_new (Some sample_account)
      (mkOptions (Some 100) (Some sample_options_object) None)
      (caller_assigns sample_options_object (TNumber 1000) TUndefined sample_heap)
    = Ok (b, h1)
    /\ timeoutSet b = false
    /\ timeout_undecided b h1 = Ok false
    /\ build b h1 <> Err MissingTimeBounds
    /\ is_Ok (build b h1) = false.
Proof.
  apply (build_absent_maxTime sample_account sample_options_object
           (mkOptions (Some 100) (Some sample_options_object) None)
           (TNumber 1000)); reflexivity.
Defined.

(** On that input [build()] fails where [maxTime.toString()] is read. *)
Example build_absent_maxTime_TypeError :
  exists b h1,
    TransactionBuilder_new (Some sample_account)
      (mkOptions (Some 100) (Some sample_options_object) None)
      (caller_assigns sample_options_object (TNumber 1000) TUndefined sample_heap)
    = Ok (b, h1)
    /\ build b h1 = Err TypeError.
Proof. do 2 eexists. split; reflexivity. Qed.

(** A [maxTime] given as the text [0] passes the guard too, and the
    transaction is built with no upper bound and no call of [setTimeout]. *)
Example build_text_zero_maxTime :
  exists b h1 tx h2,
    TransactionBuilder_new (Some sample_account)
      (mkOptions (Some 100) (Some sample_options_object) None)
      (caller_assigns sample_options_object (TNumber 0) (TString "0") sample_heap)
    = Ok (b, h1)
    /\ timeoutSet b = false
    /\ build b h1 = Ok (tx, h2)
    /\ tx_timeBounds tx = Some (0, 0).
Proof. do 4 eexists. split_ands; reflexivity. Qed.

(** The conversion of text to a number, on samples. *)
Example ascii_gt_zero_samples :
  forallb ascii_gt_zero
    ["1.5"; "1e3"; " 5"; "+5"; "0x10"; "0b101"; "Infinity"; ".5"; "5.";
     "5e-324"]%string = true
  /\ existsb ascii_gt_zero
       [EmptyString; " "; "abc"; "-"; "-1.5"; "0.0"; "0x"; "+0x10"; "1e-400";
        "1_000"; "."; "e5"; "-Infinity"]%string = false.
Proof. split; reflexivity. Qed.

(** A [maxTime] given as the text [1.5] is above zero: [setTimeout] meets
    the conflict, whatever its argument. *)
Example setTimeout_text_maxTime :
  exists b h1,
    TransactionBuilder_new (Some sample_account)
      (mkOptions (Some 100) (Some sample_options_object) None)
      (caller_assigns sample_options_object (TNumber 0) (TString "1.5") sample_heap)
    = Ok (b, h1)
    /\ setTimeout 1700000000000 30 b h1 = Err TimeBoundsConflict
    /\ setTimeout 1700000000000 (-1) b h1 = Err TimeBoundsConflict.
Proof. do 2 eexists. split_ands; reflexivity. Qed.

Lemma setTimeout_failures_witness :
  (exists b h1,
      TransactionBuilder_new (Some sample_account)
        (mkOptions (Some 100) (Some sample_options_object) None) sample_heap
      = Ok (b, h1)
      /\ setTimeout 1700000000000 30 b h1 = Err TimeBoundsConflict)
  /\ (exists b1 h1,
         setTimeout 1700000000000 30 sample_unset_builder sample_heap
         = Ok (b1, h1)
         /\ setTimeout 1700000000000 30 b1 h1 = Err TimeBoundsConflict)
  /\ setTimeout 1700000000000 (-1) sample_unset_builder sample_heap
     = Err NegativeTimeout.
Proof.
  destruct (setTimeout_failures 1700000000000 30 sample_unset_builder sample_heap)
    as (_ & H2 & H3 & _).
  destruct (setTimeout_failures 1700000000000 (-1) sample_unset_builder sample_heap)
    as (_ & _ & _ & H4 & _).
  split; [|split].
  - apply (H2 sample_account _ sample_options_object
             (mkTimeBounds (TNumber 0) (TDate sample_date))); reflexivity.
  - do 2 eexists. split; [reflexivity|].
    apply (H3 1700000000000 30); [lia | lia | reflexivity].
  - apply H4; [lia | left; reflexivity].
Defined.

(** C7 fails on the code: a second [setTimeout] after [setTimeout(0)] is
    accepted, and sets the time bounds; and with a [maxTime > 0] in place a
    negative argument meets the conflict check first, so the error is not
    [NegativeTimeout]. *)
Lemma setTimeout_twice_accepted :
  (exists b1 b2 h2,
      setTimeout 1700000000000 0 sample_unset_builder sample_heap
      = Ok (b1, sample_heap)
      /\ timeoutSet b1 = true
      /\ setTimeout 1700000000000 30 b1 sample_heap = Ok (b2, h2)
      /\ stored_timebounds b2 h2
         = Some (ObsValue (TNumber 0), ObsValue (TNumber 1700000030)))
  /\ setTimeout 1700000000000 (-1) sample_builder sample_builder_heap
     = Err TimeBoundsConflict.
Proof.
  split; [do 3 eexists; split_ands; reflexivity|].
  reflexivity.
Qed.

Lemma timebounds_shallow_copy_witness :
  exists b h1 l',
    TransactionBuilder_new (Some sample_account)
      (mkOptions (Some 100) (Some sample_options_object) None) sample_heap
    = Ok (b, h1)
    /\ timebounds b = Some l' /\ l' <> sample_options_object
    /\ bounds h1 !! l' = Some (mkTimeBounds (TNumber 0) (TDate sample_date))
    /\ bounds h1 !! sample_options_object
       = Some (mkTimeBounds (TNumber 0) (TDate sample_date))
    /\ dates h1 = dates sample_heap
    /\ forall min max,
        bounds (caller_assigns sample_options_object min max h1) !! l'
        = Some (mkTimeBounds (TNumber 0) (TDate sample_date))
        /\ stored_timebounds b (caller_assigns sample_options_object min max h1)
           = stored_timebounds b h1.
Proof.
  apply (timebounds_shallow_copy sample_account sample_options_object
           (mkOptions (Some 100) (Some sample_options_object) None));
    reflexivity.
Defined.

(** C8 fails on the code: the copy is shallow.  The caller's [Date] is
    shared with the builder, so [setTime] on it changes the time bounds the
    builder holds, and the transaction built from them. *)
Lemma nested_Date_mutation_reaches_builder :
  exists b h1,
    TransactionBuilder_new (Some sample_account)
      (mkOptions (Some 100) (Some sample_options_object) None) sample_heap
    = Ok (b, h1)
    /\ stored_timebounds b h1
       = Some (ObsValue (TNumber 0), ObsDate (Some (Some 1000000)))
    /\ stored_timebounds b (Date_setTime sample_date 2000000 h1)
       = Some (ObsValue (TNumber 0), ObsDate (Some (Some 2000000)))
    /\ (exists tx h2, build b h1 = Ok (tx, h2)
                      /\ tx_timeBounds tx = Some (0, 1000))
    /\ (exists tx h2, build b (Date_setTime sample_date 2000000 h1) = Ok (tx, h2)
                      /\ tx_timeBounds tx = Some (0, 2000)).
Proof.
  do 2 eexists. split; [reflexivity|].
  split; [reflexivity|].
  split; [reflexivity|].
  split; do 2 eexists; split; reflexivity.
Qed.
End BuilderSamples.

(** * Further properties *)

(** ** asset.js *)

Lemma option_string_eqb_eq (x y : option string) :
  option_string_eqb x y = true <-> x = y.
Proof.
  destruct x as [a|], y as [b|]; simpl; try (split; congruence).
  rewrite String.eqb_eq. split; congruence.
Qed.

Lemma equals_eq (a b : Asset) : equals a b = true <-> a = b.
Proof.
  unfold equals, getCode, getIssuer.
  rewrite andb_true_iff, String.eqb_eq, option_string_eqb_eq.
  destruct a, b; simpl. split; [intros [-> ->]; reflexivity|].
  intros [= -> ->]. split; reflexivity.
Qed.

(** X1: [equals] decides equality of the two fields: it holds exactly of
    assets with the same code and the same issuer (an empty issuer text is
    not an absent one), so it is reflexive, symmetric and transitive. *)
Theorem equals_equivalence (a b c : Asset) :
  (equals a b = true <-> code a = code b /\ issuer a = issuer b)
  /\ equals a a = true
  /\ equals a b = equals b a
  /\ (equals a b = true -> equals b c = true -> equals a c = true)
  /\ equals (mkAsset (code a) (Some EmptyString)) (mkAsset (code a) None) = false.
Proof.
  split; [|split; [|split; [|split]]].
  - rewrite equals_eq. destruct a, b; simpl. split.
    + intros [= -> ->]. split; reflexivity.
    + intros [-> ->]. reflexivity.
  - now apply equals_eq.
  - destruct (equals a b) eqn:Hab, (equals b a) eqn:Hba; try reflexivity.
    + apply equals_eq in Hab. subst b.
      assert (equals a a = true) by now apply equals_eq. congruence.
    + apply equals_eq in Hba. subst b.
      assert (equals a a = true) by now apply equals_eq. congruence.
  - intros Hab Hbc. apply equals_eq in Hab, Hbc. apply equals_eq. congruence.
  - unfold equals. simpl. now rewrite andb_false_r.
Qed.

Section AssetCoverage.
Context `{C : Collaborators}.

(** X2: of every asset the constructor returns, [getAssetType()] is never
    [null]: it is [native] exactly for a native asset, and for an issued one
    it names the arm [toXDRObject()] selects, [credit_alphanum4] for a code of
    at most 4 characters and [credit_alphanum12] for a longer one. *)
Theorem getAssetType_constructed (code0 : string) (issuer0 : option string)
    (a : Asset) :
  Asset_new code0 issuer0 = Ok a ->
  getAssetType a <> None
  /\ (getAssetType a = Some "native" <-> isNative a = true)
  /\ forall x, toXDRObject a = Ok x ->
       getAssetType a
       = Some match x with
              | assetTypeNative => "native"
              | assetTypeCreditAlphanum4 _ _ => "credit_alphanum4"
              | assetTypeCreditAlphanum12 _ _ => "credit_alphanum12"
              end.
Proof.
  intros Hnew. apply Asset_new_inv in Hnew as (-> & Hc & _ & _).
  apply asset_code_regex_spec in Hc as [_ [Hlo Hhi]].
  unfold getAssetType, toXDRObject. cbn [code issuer].
  destruct (isNative (mkAsset code0 issuer0)) eqn:Hn.
  - split; [discriminate|]. split; [tauto|]. now intros x [= <-].
  - assert (H1 : (1 <=? String.length code0)%nat = true) by now apply Nat.leb_le.
    assert (H12 : (String.length code0 <=? 12)%nat = true) by now apply Nat.leb_le.
    rewrite H1, H12. cbn [andb].
    destruct (Nat.leb_spec (String.length code0) 4) as [H4|H4].
    + split; [discriminate|]. split; [split; discriminate|].
      intros x. destruct (Keypair_xdrAccountId _); [|discriminate].
      now intros [= <-].
    + assert (H5 : (5 <=? String.length code0)%nat = true) by (apply Nat.leb_le; lia).
      rewrite H5. cbn [andb].
      split; [discriminate|]. split; [split; discriminate|].
      intros x. destruct (Keypair_xdrAccountId _); [|discriminate].
      now intros [= <-].
Qed.

(** X3: every native asset the constructor returns has the payload-free
    canonical form, which decodes to the code [XLM] with no issuer; the
    decoded asset is equal to the original exactly when the original was
    built from the code [XLM] and an absent issuer. *)
Theorem native_round_trip_exact (code0 : string) (issuer0 : option string)
    (a : Asset) :
  Asset_new code0 issuer0 = Ok a ->
  isNative a = true ->
  toXDRObject a = Ok assetTypeNative
  /\ fromOperation assetTypeNative = Ok (mkAsset "XLM" None)
  /\ toLowerCase code0 = "xlm"
  /\ (equals (mkAsset "XLM" None) a = true <-> code0 = "XLM" /\ issuer0 = None).
Proof.
  intros Hnew Hn. apply Asset_new_inv in Hnew as (-> & _ & Hx & _).
  split; [unfold toXDRObject; now rewrite Hn|].
  split; [reflexivity|].
  split; [apply Hx; now apply negb_true_iff|].
  rewrite equals_eq. split.
  - now intros [= <- <-].
  - now intros [-> ->].
Qed.

(** X4: [fromOperation] reads a credit arm whatever its width and its
    padding: for every valid code, padded with null bytes to any width and
    held in either arm beside a key whose encoding is a valid identity, it
    returns the asset of that code and that identity; and [toXDRObject] of
    the result is the canonical form by the length of the code.  So decoding
    and encoding again gives back exactly the canonical forms. *)
Theorem decode_normalises (code0 : string) (k : RawKey) (n : nat) (arm12 : bool) :
  asset_code_regex code0 = true ->
  isValidEd25519PublicKey (encodeEd25519PublicKey k) = true ->
  encodeEd25519PublicKey k <> EmptyString ->
  decodeEd25519PublicKey (encodeEd25519PublicKey k) = Some k ->
  let x := (if arm12 then assetTypeCreditAlphanum12 else assetTypeCreditAlphanum4)
             (padEnd code0 n NUL) (publicKeyTypeEd25519 k) in
  let a := mkAsset code0 (Some (encodeEd25519PublicKey k)) in
  fromOperation x = Ok a
  /\ toXDRObject a = Ok (canonical_form code0 k)
  /\ (x = canonical_form code0 k -> toXDRObject a = Ok x).
Proof.
  intros Hc Hv Hne Hd x a.
  destruct (asset_code_regex_spec _ Hc) as [Hal _].
  assert (Ht : truthy (Some (encodeEd25519PublicKey k)) = true).
  { simpl. now destruct (String.eqb_spec (encodeEd25519PublicKey k) EmptyString). }
  assert (Hnew : Asset_new code0 (Some (encodeEd25519PublicKey k)) = Ok a).
  { unfold Asset_new. rewrite Hc, Ht, Hv. simpl. now rewrite andb_false_r. }
  assert (Hx : toXDRObject a = Ok (canonical_form code0 k)).
  { unfold toXDRObject, isNative, Keypair_xdrAccountId, padLength, canonical_form.
    cbn [issuer code a]. rewrite Ht. simpl. rewrite Hd.
    now destruct (String.length code0 <=? 4)%nat. }
  split.
  - unfold x. destruct arm12; unfold fromOperation; cbn [ed25519];
      now rewrite trimEnd_padEnd.
  - split; [exact Hx|]. now intros ->.
Qed.

(** X5: for a key whose encoding is not the empty text, what
    [fromOperation] returns for a credit arm is never a native asset: its
    code is the code slot without the trailing null bytes, its issuer is the
    encoding of the key and a valid identity.  It fails with
    [InvalidAssetCode] exactly when the trimmed slot is not 1 to 12
    alphanumeric characters, as for a slot of null bytes only, and with
    [InvalidIssuer] exactly when the slot is fine and the encoding is not a
    valid identity. *)
Theorem fromOperation_credit (assetCode : string) (k : AccountId) (arm12 : bool) :
  encodeEd25519PublicKey (ed25519 k) <> EmptyString ->
  let x := (if arm12 then assetTypeCreditAlphanum12 else assetTypeCreditAlphanum4)
             assetCode k in
  (forall a, fromOperation x = Ok a ->
     isNative a = false
     /\ code a = trimEnd assetCode NUL
     /\ issuer a = Some (encodeEd25519PublicKey (ed25519 k))
     /\ isValidEd25519PublicKey (encodeEd25519PublicKey (ed25519 k)) = true)
  /\ (fromOperation x = Err InvalidAssetCode
      <-> asset_code_regex (trimEnd assetCode NUL) = false)
  /\ (fromOperation x = Err InvalidIssuer
      <-> asset_code_regex (trimEnd assetCode NUL) = true
          /\ isValidEd25519PublicKey (encodeEd25519PublicKey (ed25519 k)) = false)
  /\ (forall m, fromOperation
                  ((if arm12 then assetTypeCreditAlphanum12
                    else assetTypeCreditAlphanum4) (repeat_char NUL m) k)
                = Err InvalidAssetCode).
Proof.
  intros Hne x.
  assert (Ht : truthy (Some (encodeEd25519PublicKey (ed25519 k))) = true).
  { simpl. now destruct (String.eqb_spec (encodeEd25519PublicKey (ed25519 k)) EmptyString). }
  assert (Hx : forall s,
             fromOperation ((if arm12 then assetTypeCreditAlphanum12
                             else assetTypeCreditAlphanum4) s k)
             = if negb (asset_code_regex (trimEnd s NUL)) then Err InvalidAssetCode
               else if negb (isValidEd25519PublicKey
                               (encodeEd25519PublicKey (ed25519 k)))
               then Err InvalidIssuer
               else Ok (mkAsset (trimEnd s NUL)
                          (Some (encodeEd25519PublicKey (ed25519 k))))).
  { intros s. destruct arm12; unfold fromOperation, Asset_new; rewrite Ht;
      simpl; now rewrite andb_false_r. }
  unfold x. split; [|split; [|split]].
  - intros a. rewrite Hx.
    destruct (asset_code_regex (trimEnd assetCode NUL)); simpl; [|discriminate].
    destruct (isValidEd25519PublicKey _) eqn:Hv; simpl; [|discriminate].
    intros [= <-]. unfold isNative. cbn [issuer code]. rewrite Ht. auto.
  - rewrite Hx.
    destruct (asset_code_regex (trimEnd assetCode NUL)); simpl; [|tauto].
    destruct (isValidEd25519PublicKey _); simpl; split; discriminate.
  - rewrite Hx.
    destruct (asset_code_regex (trimEnd assetCode NUL)); simpl.
    + destruct (isValidEd25519PublicKey _); simpl; split;
        try discriminate; try tauto. intros [_ ?]. discriminate.
    + split; [discriminate|]. intros [? _]. discriminate.
  - intros m. rewrite Hx, trimEnd_repeat_char. reflexivity.
Qed.
End AssetCoverage.

Section AssetCoverageSamples.
#[local] Existing Instance sample_collaborators.

Lemma sample_encoding_nonempty (k : RawKey) :
  encodeEd25519PublicKey k <> EmptyString.
Proof. discriminate. Qed.

Lemma getAssetType_constructed_witness :
  getAssetType (mkAsset "LONGCODE12" (Some sample_identity)) <> None
  /\ (getAssetType (mkAsset "LONGCODE12" (Some sample_identity)) = Some "native"
      <-> isNative (mkAsset "LONGCODE12" (Some sample_identity)) = true)
  /\ forall x, toXDRObject (mkAsset "LONGCODE12" (Some sample_identity)) = Ok x ->
       getAssetType (mkAsset "LONGCODE12" (Some sample_identity))
       = Some match x with
              | assetTypeNative => "native"
              | assetTypeCreditAlphanum4 _ _ => "credit_alphanum4"
              | assetTypeCreditAlphanum12 _ _ => "credit_alphanum12"
              end.
Proof.
  apply (getAssetType_constructed "LONGCODE12" (Some sample_identity)).
  reflexivity.
Defined.

Lemma native_round_trip_exact_witness :
  toXDRObject (mkAsset "xLm" None) = Ok assetTypeNative
  /\ fromOperation assetTypeNative = Ok (mkAsset "XLM" None)
  /\ toLowerCase "xLm" = "xlm"
  /\ (equals (mkAsset "XLM" None) (mkAsset "xLm" None) = true
      <-> "xLm" = "XLM" /\ @None string = None).
Proof.
  apply (native_round_trip_exact "xLm" None); reflexivity.
Defined.

Lemma decode_normalises_witness :
  fromOperation
    (assetTypeCreditAlphanum12 (padEnd "USD" 12 NUL)
       (publicKeyTypeEd25519 "raw-key-bytes"))
  = Ok (mkAsset "USD" (Some sample_identity))
  /\ toXDRObject (mkAsset "USD" (Some sample_identity))
     = Ok (canonical_form "USD" "raw-key-bytes")
  /\ (assetTypeCreditAlphanum12 (padEnd "USD" 12 NUL)
         (publicKeyTypeEd25519 "raw-key-bytes")
       = canonical_form "USD" "raw-key-bytes" ->
      toXDRObject (mkAsset "USD" (Some sample_identity))
      = Ok (assetTypeCreditAlphanum12 (padEnd "USD" 12 NUL)
              (publicKeyTypeEd25519 "raw-key-bytes"))).
Proof.
  exact (decode_normalises "USD" "raw-key-bytes" 12 true
           eq_refl eq_refl (sample_encoding_nonempty "raw-key-bytes") eq_refl).
Defined.

Lemma fromOperation_credit_witness :
  (forall a,
      fromOperation (assetTypeCreditAlphanum4 (padEnd "USD" 4 NUL)
                       (publicKeyTypeEd25519 "raw-key-bytes")) = Ok a ->
      isNative a = false
      /\ code a = trimEnd (padEnd "USD" 4 NUL) NUL
      /\ issuer a = Some sample_identity
      /\ isValidEd25519PublicKey sample_identity = true)
  /\ (fromOperation (assetTypeCreditAlphanum4 (padEnd "USD" 4 NUL)
                       (publicKeyTypeEd25519 "raw-key-bytes"))
      = Err InvalidAssetCode
      <-> asset_code_regex (trimEnd (padEnd "USD" 4 NUL) NUL) = false)
  /\ (fromOperation (assetTypeCreditAlphanum4 (padEnd "USD" 4 NUL)
                       (publicKeyTypeEd25519 "raw-key-bytes"))
      = Err InvalidIssuer
      <-> asset_code_regex (trimEnd (padEnd "USD" 4 NUL) NUL) = true
          /\ isValidEd25519PublicKey sample_identity = false)
  /\ (forall m,
        fromOperation (assetTypeCreditAlphanum4 (repeat_char NUL m)
                         (publicKeyTypeEd25519 "raw-key-bytes"))
        = Err InvalidAssetCode).
Proof.
  exact (fromOperation_credit (padEnd "USD" 4 NUL)
           (publicKeyTypeEd25519 "raw-key-bytes") false
           (sample_encoding_nonempty "raw-key-bytes")).
Defined.
End AssetCoverageSamples.

(** ** account.js *)

Section AccountCoverage.
Context `{C : Collaborators}.

(** X6: [k] calls of [incrementSequenceNumber()] add exactly [k] to the
    sequence the account reports, leave its identity as it was, and change
    no other object of the heap. *)
Theorem increment_times_adds (k : nat) (l : loc) (h : heap) (a : Account) :
  accounts h !! l = Some a ->
  exists h',
    increment_times k l h = Ok h'
    /\ sequenceNumber l h' = Ok (decimal (sequence a + Z.of_nat k))
    /\ accountId l h' = Ok (_accountId a)
    /\ (forall l', l' <> l -> accounts h' !! l' = accounts h !! l')
    /\ bounds h' = bounds h /\ dates h' = dates h.
Proof.
  revert h a. induction k as [|k IH]; intros h a Ha.
  - exists h. simpl. rewrite Z.add_0_r.
    unfold sequenceNumber, accountId, get_account. rewrite Ha. simpl.
    split_ands; auto.
  - cbn [increment_times]. rewrite (incrementSequenceNumber_spec l a h Ha).
    destruct (IH (set_account l (mkAccount (_accountId a) (sequence a + 1)) h)
                (mkAccount (_accountId a) (sequence a + 1)))
      as (h' & Hrun & Hseq & Hid & Hfr & Hb & Hd).
    { simpl. apply lookup_insert_eq. }
    exists h'. split; [exact Hrun|].
    split.
    { rewrite Hseq. simpl. do 2 f_equal. lia. }
    split; [exact Hid|].
    split.
    { intros l' Hl'. rewrite (Hfr l' Hl'). simpl.
      rewrite lookup_insert_ne by congruence. reflexivity. }
    split; [exact Hb|exact Hd].
Qed.
End AccountCoverage.

(** ** network.js *)

Lemma run_calls_app cs1 cs2 cur :
  run_calls (cs1 ++ cs2) cur = run_calls cs2 (run_calls cs1 cur).
Proof. unfold run_calls. apply fold_left_app. Qed.

Lemma run_call_selected c cur : run_call c cur = Some (selected c).
Proof. now destruct c. Qed.

(** X7: the selected network is the one of the last call: whatever was
    selected before, after any calls ending with [c], [Network.current()] is
    the network [c] selects; and [current()] is [null] from the load of the
    module exactly until the first call.  The two predefined networks have
    different passphrases. *)
Theorem last_selection_wins (cs : list network_call) (c : network_call)
    (cur : current_network) :
  Network_current (run_calls (cs ++ [c]) cur) = Some (selected c)
  /\ (Network_current (run_calls cs current_at_load) = None <-> cs = [])
  /\ networkPassphrase (selected call_usePublicNetwork) = "osch public network"
  /\ networkPassphrase (selected call_useTestNetwork) = "osch test network"
  /\ selected call_usePublicNetwork <> selected call_useTestNetwork.
Proof.
  split; [|split; [|split; [|split]]]; try reflexivity.
  - rewrite run_calls_app. simpl. apply run_call_selected.
  - split; [|now intros ->].
    destruct cs as [|c0 cs0] using rev_ind; [reflexivity|].
    rewrite run_calls_app. simpl. now rewrite run_call_selected.
  - discriminate.
Qed.

(** ** transaction_builder.js *)

Lemma seconds_text_whole (s : Z) : seconds_text (1000 * s) = decimal s.
Proof.
  unfold seconds_text.
  replace (Z.abs (1000 * s) mod 1000) with 0.
  - simpl. f_equal. rewrite Z.mul_comm. apply Z.div_mul. lia.
  - rewrite Z.abs_mul. simpl (Z.abs 1000). rewrite Z.mul_comm.
    symmetry. apply Z.mod_mul. lia.
Qed.

Section BuilderCoverage.
Context `{C : Collaborators}.

Lemma addOperations_fields (ops : list Operation) (this : TransactionBuilder) :
  operations (addOperations ops this) = operations this ++ ops
  /\ source (addOperations ops this) = source this
  /\ baseFee (addOperations ops this) = baseFee this
  /\ timebounds (addOperations ops this) = timebounds this
  /\ memo (addOperations ops this) = memo this
  /\ timeoutSet (addOperations ops this) = timeoutSet this.
Proof.
  unfold addOperations. revert this.
  induction ops as [|op ops IH]; intros this; simpl.
  - rewrite app_nil_r. split_ands; reflexivity.
  - destruct (IH (addOperation op this)) as (H1 & H2 & H3 & H4 & H5 & H6).
    rewrite H1, H2, H3, H4, H5, H6. simpl. rewrite <- app_assoc.
    split_ands; reflexivity.
Qed.

(** X8: operations chained with [addOperation] reach the transaction in the
    order of the calls, after those the builder already held, and each one
    counts once in the fee: the fee is the product of the base fee and the
    number of all operations as numbers multiply, exact when its magnitude is
    at most 2^53; the calls change no other field of the builder. *)
Theorem build_operations_in_order (ops : list Operation)
    (this : TransactionBuilder) (h : heap) (tx : Transaction) (h' : heap) :
  build (addOperations ops this) h = Ok (tx, h') ->
  tx_operations tx = operations this ++ ops
  /\ tx_fee tx
     = js_mul (baseFee this) (Z.of_nat (length (operations this) + length ops))
  /\ (Z.abs (baseFee this * Z.of_nat (length (operations this) + length ops))
      <= 2 ^ 53 ->
      tx_fee tx
      = Finite (baseFee this * Z.of_nat (length (operations this) + length ops)))
  /\ source (addOperations ops this) = source this
  /\ timebounds (addOperations ops this) = timebounds this
  /\ memo (addOperations ops this) = memo this
  /\ timeoutSet (addOperations ops this) = timeoutSet this.
Proof.
  intros Hb.
  destruct (addOperations_fields ops this) as (H1 & H2 & H3 & H4 & H5 & H6).
  apply build_Ok_inv in Hb
    as (a & k & sq & tbs & h1 & _ & _ & _ & _ & _ & -> & _).
  cbn [tx_operations tx_fee]. rewrite H1, H3, length_app.
  split_ands; auto. apply to_double_exact.
Qed.

(** X9: the memo of the transaction is the XDR form of the memo given last:
    the constructor stores [opts.memo], or [Memo.none()] when there is none,
    [addMemo] replaces what is stored, [setTimeout] and [addOperation] keep
    it, and [build] converts it; after [addMemo(null)] the transaction has
    no memo. *)
Theorem build_memo (m : option Memo) (this : TransactionBuilder) (h : heap)
    (tx : Transaction) (h' : heap) :
  build (addMemo m this) h = Ok (tx, h') ->
  tx_memo tx = option_map Memo_toXDRObject m
  /\ (m = None -> tx_memo tx = None)
  /\ (forall m0, addMemo m (addMemo m0 this) = addMemo m this)
  /\ (forall op, memo (addOperation op (addMemo m this)) = m)
  /\ (forall now t b1 h1,
        setTimeout now t (addMemo m this) h = Ok (b1, h1) -> memo b1 = m)
  /\ (forall src opts h0 b h1,
        TransactionBuilder_new (Some src) opts h0 = Ok (b, h1) ->
        memo b = Some (default Memo_none (opts_memo opts))).
Proof.
  intros Hb.
  apply build_Ok_inv in Hb
    as (a & k & sq & tbs & h1 & _ & _ & _ & _ & _ & -> & _).
  simpl. split; [reflexivity|]. split; [now intros ->|].
  split; [reflexivity|]. split; [reflexivity|]. split.
  - intros now t b1 h1'. unfold setTimeout. cbn [timebounds addMemo].
    repeat (case_step; try discriminate); now intros [= <- <-].
  - intros src opts h0 b h1'. unfold TransactionBuilder_new.
    destruct (clone (opts_timebounds opts) h0) as [[tb h2]|]; [|discriminate].
    now intros [= <- <-].
Qed.

(** X10: on a builder whose time bounds are [null] or a live object,
    [setTimeout] succeeds exactly when the argument is not negative and the
    time bounds hold no [maxTime > 0]. *)
Theorem setTimeout_succeeds_iff (now t : Z) (this : TransactionBuilder)
    (h : heap) :
  (forall l, timebounds this = Some l -> bounds h !! l <> None) ->
  is_Ok (setTimeout now t this h) = true
  <-> 0 <= t
      /\ forall l tb, timebounds this = Some l -> bounds h !! l = Some tb ->
                      gt_zero (maxTime tb) h = false.
Proof.
  intros Hlive. unfold setTimeout, get_bounds.
  destruct (timebounds this) as [l|].
  - destruct (bounds h !! l) as [tb|] eqn:Hl; [|now destruct (Hlive l)].
    simpl. destruct (gt_zero (maxTime tb) h) eqn:Hgt; simpl.
    + split; [discriminate|]. intros [_ Hno].
      specialize (Hno l tb eq_refl Hl). congruence.
    + destruct (Z.ltb_spec t 0); simpl; [split; [discriminate|lia]|].
      assert (is_Ok (if 0 <? t
                     then Ok (mkBuilder (source this) (operations this)
                                (baseFee this) (Some (fresh (dom (bounds h))))
                                (memo this) true,
                              set_bounds (fresh (dom (bounds h)))
                                (mkTimeBounds (minTime tb)
                                   (TNumber (now / 1000 + t))) h)
                     else Ok (mkBuilder (source this) (operations this)
                                (baseFee this) (Some l) (memo this) true, h))
              = true) as -> by now destruct (0 <? t).
      split; [|reflexivity]. intros _. split; [lia|].
      intros l0 tb0 [= <-]. congruence.
  - simpl. destruct (Z.ltb_spec t 0); simpl; [split; [discriminate|lia]|].
    destruct (0 <? t); simpl; (split; [|reflexivity]); intros _;
      (split; [lia|discriminate]).
Qed.



(** X13: two builds that share an account, from the same builder or from two
    builders made on the same [Account] object, take consecutive sequence
    numbers: the second transaction carries the sequence of the account
    before the first build plus 2, and the account ends two higher. *)
Theorem builds_share_the_account (b1 b2 : TransactionBuilder) (h : heap)
    (a : Account) (tx1 tx2 : Transaction) (h1 h2 : heap) :
  source b1 = source b2 ->
  accounts h !! source b1 = Some a ->
  build b1 h = Ok (tx1, h1) ->
  build b2 h1 = Ok (tx2, h2) ->
  SequenceNumber_fromString (decimal (sequence a + 1)) = Some (tx_seqNum tx1)
  /\ SequenceNumber_fromString (decimal (sequence a + 2)) = Some (tx_seqNum tx2)
  /\ accounts h2 !! source b1
     = Some (mkAccount (_accountId a) (sequence a + 2)).
Proof.
  intros Hsrc Ha Hb1 Hb2.
  apply build_Ok_inv in Hb1
    as (a1 & k1 & sq1 & tbs1 & g1 & _ & Ha1 & _ & Hs1 & _ & -> & ->).
  rewrite Ha in Ha1. injection Ha1 as <-.
  apply build_Ok_inv in Hb2
    as (a2 & k2 & sq2 & tbs2 & g2 & _ & Ha2 & _ & Hs2 & _ & -> & ->).
  rewrite <- Hsrc in Ha2. simpl in Ha2. rewrite lookup_insert_eq in Ha2.
  injection Ha2 as <-. simpl in Hs2.
  replace (sequence a + 1 + 1) with (sequence a + 2) in Hs2 by lia.
  simpl. split; [exact Hs1|]. split; [exact Hs2|].
  rewrite <- Hsrc, lookup_insert_eq. do 2 f_equal. lia.
Qed.

Lemma build_timeBounds_inv this h tbs h1 :
  build_timeBounds this h = Ok (tbs, h1) ->
  match timebounds this with
  | None => tbs = None /\ h1 = h
  | Some l =>
      exists umin umax,
        tbs = Some (umin, umax)
        /\ h1 = set_bounds l (mkTimeBounds (THyper umin) (THyper umax)) h
  end.
Proof.
  unfold build_timeBounds, encode_timebounds.
  destruct (timebounds this) as [l|]; [|now intros [= <- <-]].
  repeat (case_step; try discriminate).
  intros [= <- <-]. eauto.
Qed.

(** X14: what a successful [build()] does to the time bounds: the builder's
    own timebounds object ends with both fields as the unsigned 64-bit
    values the transaction carries, and no other timebounds object and no
    date changes; a builder with no time bounds gives a transaction with
    none. *)
Theorem build_timebounds_effect (this : TransactionBuilder) (h : heap)
    (tx : Transaction) (h' : heap) :
  build this h = Ok (tx, h') ->
  dates h' = dates h
  /\ (forall l, timebounds this <> Some l -> bounds h' !! l = bounds h !! l)
  /\ match timebounds this with
     | None => tx_timeBounds tx = None
     | Some l =>
         exists umin umax,
           tx_timeBounds tx = Some (umin, umax)
           /\ bounds h' !! l = Some (mkTimeBounds (THyper umin) (THyper umax))
     end.
Proof.
  intros Hb.
  apply build_Ok_inv in Hb
    as (a & k & sq & tbs & h1 & _ & _ & _ & _ & Ht & -> & ->).
  apply build_timeBounds_inv in Ht. simpl.
  destruct (timebounds this) as [l|].
  - destruct Ht as (umin & umax & -> & ->). simpl.
    split; [reflexivity|]. split.
    + intros l0 Hl0. apply lookup_insert_ne. congruence.
    + exists umin, umax. split; [reflexivity|apply lookup_insert_eq].
  - destruct Ht as [-> ->]. auto.
Qed.

(** X15: a builder made without time bounds cannot be built before
    [setTimeout] is called: whatever operations and memo are added,
    [build()] fails with [MissingTimeBounds], before it reads the account;
    and the constructor fails with [MissingSourceAccount] when no source
    account is given. *)
Theorem new_builder_needs_timeout (src : loc) (opts : Options) (h : heap)
    (ops : list Operation) (m : option Memo) :
  opts_timebounds opts = None ->
  exists b,
    TransactionBuilder_new (Some src) opts h = Ok (b, h)
    /\ build (addMemo m (addOperations ops b)) h = Err MissingTimeBounds
    /\ build (addOperations ops (addMemo m b)) h = Err MissingTimeBounds
    /\ TransactionBuilder_new None opts h = Err MissingSourceAccount.
Proof.
  intros Ho. eexists. split; [now apply TransactionBuilder_new_plain|].
  split; [|split; [|reflexivity]].
  - apply build_MissingTimeBounds_iff. unfold timeout_undecided.
    cbn [timebounds timeoutSet addMemo].
    destruct (addOperations_fields ops
                (mkBuilder src []
                   match opts_fee opts with Some f => f | None => BASE_FEE end
                   None (Some (default Memo_none (opts_memo opts))) false))
      as (_ & _ & _ & -> & _ & ->). reflexivity.
  - apply build_MissingTimeBounds_iff. unfold timeout_undecided.
    match goal with |- context [addOperations ops ?b] =>
      destruct (addOperations_fields ops b) as (_ & _ & _ & -> & _ & ->) end.
    reflexivity.
Qed.

(** X16: time bounds given as valid [Date] objects on whole seconds are
    encoded as their epoch seconds: [build()] succeeds without any
    [setTimeout], for a [Date] is never [=== 0], the transaction carries what
    the codec reads from the decimal text of the seconds, and the [Date]
    objects are left as they were. *)
Theorem build_date_bounds (this : TransactionBuilder) (h : heap) (l d1 d2 : loc)
    (s1 s2 u1 u2 : Z) (a : Account) (k : RawKey) (sq : Z) :
  timebounds this = Some l ->
  bounds h !! l = Some (mkTimeBounds (TDate d1) (TDate d2)) ->
  dates h !! d1 = Some (Some (1000 * s1)) ->
  dates h !! d2 = Some (Some (1000 * s2)) ->
  UnsignedHyper_fromString (decimal s1) = Some u1 ->
  UnsignedHyper_fromString (decimal s2) = Some u2 ->
  accounts h !! source this = Some a ->
  decodeEd25519PublicKey (_accountId a) = Some k ->
  SequenceNumber_fromString (decimal (sequence a + 1)) = Some sq ->
  exists tx h',
    build this h = Ok (tx, h')
    /\ tx_timeBounds tx = Some (u1, u2)
    /\ dates h' = dates h
    /\ bounds h' !! l = Some (mkTimeBounds (THyper u1) (THyper u2)).
Proof.
  intros Ht Hl Hd1 Hd2 Hu1 Hu2 Ha Hk Hs.
  do 2 eexists. split.
  - apply (build_Ok_intro _ _ a k sq (Some (u1, u2))); eauto.
    + unfold timeout_undecided, get_bounds. now rewrite Ht, Hl.
    + unfold build_timeBounds, encode_timebounds, get_bounds, to_hyper,
        date_to_seconds, isValidDate, getTime, toString.
      rewrite Ht, Hl. cbn [of_option minTime maxTime].
      rewrite Hd1, Hd2, !seconds_text_whole, Hu1. cbn [of_option].
      rewrite Hu2. reflexivity.
  - simpl. split; [reflexivity|]. split; [reflexivity|apply lookup_insert_eq].
Qed.
End BuilderCoverage.

(** ** The further properties on sample inputs *)

Section CoverageSamples.
#[local] Existing Instance sample_collaborators.

Lemma increment_times_adds_witness :
  exists h',
    increment_times 3 sample_account sample_heap = Ok h'
    /\ sequenceNumber sample_account h' = Ok "103"
    /\ accountId sample_account h' = Ok sample_identity.
Proof.
  destruct (increment_times_adds 3 sample_account sample_heap
              (mkAccount sample_identity 100) eq_refl)
    as (h' & Hrun & Hseq & Hid & _).
  exists h'. split; [exact Hrun|]. split; [exact Hseq|exact Hid].
Defined.

Lemma build_operations_in_order_witness :
  exists tx h',
    build (addOperations [sample_operation; sample_operation] sample_builder) sample_builder_heap = Ok (tx, h')
    /\ tx_operations tx = [tt; tt; tt]
    /\ tx_fee tx = Finite 300.
Proof.
  destruct (build (addOperations [sample_operation; sample_operation] sample_builder) sample_builder_heap)
    as [[tx h']|e] eqn:Hb; [|discriminate Hb].
  destruct (build_operations_in_order [sample_operation; sample_operation] sample_builder
              sample_builder_heap tx h' Hb) as (Hops & _ & Hfee & _).
  exists tx, h'. split; [reflexivity|]. split; [exact Hops|].
  apply Hfee. change (Z.abs 300 <= 2 ^ 53). lia.
Defined.

Lemma build_memo_witness :
  exists tx h',
    build (addMemo None sample_builder) sample_builder_heap = Ok (tx, h')
    /\ tx_memo tx = None.
Proof.
  destruct (build (addMemo None sample_builder) sample_builder_heap)
    as [[tx h']|e] eqn:Hb; [|discriminate Hb].
  destruct (build_memo None sample_builder sample_builder_heap tx h' Hb)
    as (Hm & _).
  exists tx, h'. split; [reflexivity|exact Hm].
Defined.

Lemma setTimeout_succeeds_iff_witness :
  is_Ok (setTimeout 1700000000000 30 sample_builder sample_builder_heap) = true
  <-> 0 <= 30
      /\ forall l tb,
           timebounds sample_builder = Some l ->
           bounds sample_builder_heap !! l = Some tb ->
           gt_zero (maxTime tb) sample_builder_heap = false.
Proof.
  apply (setTimeout_succeeds_iff 1700000000000 30 sample_builder
           sample_builder_heap).
  intros l [= <-]. discriminate.
Defined.



Lemma builds_share_the_account_witness :
  exists tx1 h1 tx2 h2,
    build sample_builder sample_builder_heap = Ok (tx1, h1)
    /\ build sample_builder h1 = Ok (tx2, h2)
    /\ SequenceNumber_fromString "101" = Some (tx_seqNum tx1)
    /\ SequenceNumber_fromString "102" = Some (tx_seqNum tx2)
    /\ accounts h2 !! sample_account = Some (mkAccount sample_identity 102).
Proof.
  destruct (build sample_builder sample_builder_heap) as [[tx1 h1]|e] eqn:Hb1;
    [|discriminate Hb1].
  destruct (build sample_builder h1) as [[tx2 h2]|e] eqn:Hb2.
  - destruct (builds_share_the_account sample_builder sample_builder
                sample_builder_heap (mkAccount sample_identity 100)
                tx1 tx2 h1 h2 eq_refl eq_refl Hb1 Hb2) as (H1 & H2 & H3).
    exists tx1, h1, tx2, h2. split; [reflexivity|]. split; [exact Hb2|].
    split; [exact H1|]. split; [exact H2|exact H3].
  - injection Hb1 as _ <-. discriminate Hb2.
Defined.

Lemma build_timebounds_effect_witness :
  exists tx h',
    build sample_builder sample_builder_heap = Ok (tx, h')
    /\ dates h' = dates sample_builder_heap
    /\ bounds h' !! sample_options_object
       = bounds sample_builder_heap !! sample_options_object
    /\ tx_timeBounds tx = Some (0, 1700000030).
Proof.
  destruct (build sample_builder sample_builder_heap) as [[tx h']|e] eqn:Hb;
    [|discriminate Hb].
  destruct (build_timebounds_effect sample_builder sample_builder_heap tx h' Hb)
    as (Hd & Hfr & _).
  exists tx, h'. split; [reflexivity|]. split; [exact Hd|].
  split; [apply Hfr; discriminate|].
  injection Hb as <- _. reflexivity.
Defined.

Lemma new_builder_needs_timeout_witness :
  exists b,
    TransactionBuilder_new (Some sample_account) (mkOptions (Some 100) None None)
      sample_heap = Ok (b, sample_heap)
    /\ build (addMemo (Some sample_memo) (addOperations [sample_operation] b)) sample_heap
       = Err MissingTimeBounds
    /\ build (addOperations [sample_operation] (addMemo (Some sample_memo) b)) sample_heap
       = Err MissingTimeBounds
    /\ TransactionBuilder_new None (mkOptions (Some 100) None None) sample_heap
       = Err MissingSourceAccount.
Proof.
  exact (new_builder_needs_timeout sample_account (mkOptions (Some 100) None None)
           sample_heap [sample_operation] (Some sample_memo) eq_refl).
Defined.

Lemma build_date_bounds_witness :
  exists tx h',
    build (mkBuilder sample_account [] 100 (Some sample_options_object)
             (Some sample_memo) false)
      (caller_assigns sample_options_object (TDate sample_date)
         (TDate sample_date) sample_heap)
    = Ok (tx, h')
    /\ tx_timeBounds tx = Some (1000, 1000)
    /\ dates h' = dates sample_heap
    /\ bounds h' !! sample_options_object
       = Some (mkTimeBounds (THyper 1000) (THyper 1000)).
Proof.
  exact (build_date_bounds
           (mkBuilder sample_account [] 100 (Some sample_options_object)
              (Some sample_memo) false)
           (caller_assigns sample_options_object (TDate sample_date)
              (TDate sample_date) sample_heap)
           sample_options_object sample_date sample_date 1000 1000 1000 1000
           (mkAccount sample_identity 100) "raw-key-bytes" 101
           eq_refl eq_refl eq_refl eq_refl eq_refl eq_refl eq_refl eq_refl eq_refl).
Defined.
End CoverageSamples.
